(** * The CRUD scaffolding generators of the olympus workspace

    Two scripts generate the scaffolding of an entity from an entity name and
    a field specification such as [name:string,price:number]:

    - the generator that writes into [libs/olympus/core/src/lib] (module
      [CoreGen] below; its source is [src/unnamed/part_000]): the optional
      marker [?] is read on the name side of a field, types go through two
      lookup tables, the table name is the camel-case name plus [s];
    - [scripts/generate-crud.js] (module [GenerateCrud] below): the optional
      marker is read on the type side, types go through a [switch], the table
      name is the snake-case name.

    Both are embedded as executable Rocq functions.  JavaScript strings are
    modelled by [string], a sequence of 7-bit ASCII characters, which is what
    entity names, field names and type tokens are made of; the case
    conversions and [trim] are those of JavaScript on such strings
    ([isAscii] below), and say nothing of other characters.  The file system
    is a finite map from paths to contents together with the log of the paths
    written; directories, and the writes that the file system refuses, are
    not part of it, so that what is stated of a run that completes is stated
    of a run all of whose writes succeed.  Paths are joined as they are,
    which is what [path.join] does for an entity name that is a plain
    identifier ([plainName] below).  The system clock is a sequence of
    readings of which every call to [Date] consumes one. *)

From Stdlib Require Import String Ascii ZArith List Bool Lia.
From Stdlib Require Import Numbers.DecimalString.
From Stdlib Require DecimalZ DecimalPos.
From stdpp Require Import base strings gmap.
Import ListNotations.

(** ** The JavaScript string primitives the scripts use *)

Module Js.

Definition isUpperChar (c : ascii) : bool :=
  let n := nat_of_ascii c in ((65 <=? n) && (n <=? 90))%nat.

Definition isLowerChar (c : ascii) : bool :=
  let n := nat_of_ascii c in ((97 <=? n) && (n <=? 122))%nat.

(** The case of one character.  Only the ASCII letters have a case here:
    on ASCII text this is the case mapping of JavaScript, which on other
    characters can also change the length of a string. *)
Definition toUpperChar (c : ascii) : ascii :=
  if isLowerChar c then ascii_of_nat (nat_of_ascii c - 32) else c.

Definition toLowerChar (c : ascii) : ascii :=
  if isUpperChar c then ascii_of_nat (nat_of_ascii c + 32) else c.

(** [String.prototype.toLowerCase] and [toUpperCase]. *)
Fixpoint toLowerCase (s : string) : string :=
  match s with
  | EmptyString => EmptyString
  | String c r => String (toLowerChar c) (toLowerCase r)
  end.

Fixpoint toUpperCase (s : string) : string :=
  match s with
  | EmptyString => EmptyString
  | String c r => String (toUpperChar c) (toUpperCase r)
  end.

(** [s.charAt(0)]: the first character as a string, empty on the empty
    string. *)
Definition charAt0 (s : string) : string :=
  match s with
  | EmptyString => EmptyString
  | String c _ => String c EmptyString
  end.

(** [s.slice(1)]. *)
Definition slice1 (s : string) : string :=
  match s with
  | EmptyString => EmptyString
  | String _ r => r
  end.

(** [s.startsWith(pat)], the test behind [includes] and [replace]. *)
Fixpoint startsWith (pat s : string) : bool :=
  match pat, s with
  | EmptyString, _ => true
  | String _ _, EmptyString => false
  | String a p, String b r => Ascii.eqb a b && startsWith p r
  end.

(** [s.includes(pat)]: [pat] occurs in [s] as a substring. *)
Fixpoint includes (s pat : string) : bool :=
  startsWith pat s ||
  match s with
  | EmptyString => false
  | String _ r => includes r pat
  end.

Fixpoint drop (n : nat) (s : string) : string :=
  match n, s with
  | O, _ => s
  | S _, EmptyString => EmptyString
  | S m, String _ r => drop m r
  end.

(** [s.replace(pat, rep)] with a string pattern: the first occurrence of
    [pat] is replaced, the rest of [s] is kept.  (No replacement text in the
    scripts contains a dollar sign, so the special replacement patterns of
    JavaScript do not arise.) *)
Fixpoint replace (pat rep s : string) : string :=
  if startsWith pat s then rep +:+ drop (String.length pat) s
  else match s with
       | EmptyString => EmptyString
       | String c r => String c (replace pat rep r)
       end.

(** [s.split(sep)] for a one-character separator: all the segments between
    the occurrences of [sep], at least one segment. *)
Fixpoint split (sep : ascii) (s : string) : list string :=
  match s with
  | EmptyString => [EmptyString]
  | String c r =>
      if Ascii.eqb c sep then EmptyString :: split sep r
      else match split sep r with
           | seg :: segs => String c seg :: segs
           | [] => [String c EmptyString]
           end
  end.

(** [xs.join(sep)]. *)
Definition join (sep : string) (xs : list string) : string :=
  String.concat sep xs.

(** White space in the sense of [trim], within ASCII: tab, line feed,
    vertical tab, form feed, carriage return and space.  (The white space
    of JavaScript outside ASCII, such as the no-break space, does not occur
    in the strings of this file.) *)
Definition isWhite (c : ascii) : bool :=
  let n := nat_of_ascii c in (((9 <=? n) && (n <=? 13)) || (n =? 32))%nat.

Fixpoint trimStart (s : string) : string :=
  match s with
  | EmptyString => EmptyString
  | String c r => if isWhite c then trimStart r else s
  end.

Fixpoint trimEnd (s : string) : string :=
  match s with
  | EmptyString => EmptyString
  | String c r =>
      match trimEnd r with
      | EmptyString => if isWhite c then EmptyString else String c EmptyString
      | r' => String c r'
      end
  end.

(** [s.trim()]. *)
Definition trim (s : string) : string := trimEnd (trimStart s).

(** A boolean in a template literal. *)
Definition showBool (b : bool) : string := if b then "true" else "false".

(** An integer in a template literal. *)
Definition showZ (z : Z) : string := NilZero.string_of_int (Z.to_int z).

(** The line feed, as a string. *)
Definition newline : string := String (ascii_of_nat 10) EmptyString.

(** The double quote character, as a string. *)
Definition dq : string := String (ascii_of_nat 34) EmptyString.

(** The backquote character, as a string. *)
Definition bq : string := String (ascii_of_nat 96) EmptyString.

(** [xs.forEach(x => { acc += f(x) })]: appends a piece per element. *)
Definition appendEach {A} (f : A -> string) (xs : list A) (acc : string) : string :=
  fold_left (fun acc x => acc +:+ f x) xs acc.

End Js.

(** ** Files and the clock *)

(** A reading of the clock: the epoch milliseconds that [Date.now()] returns
    and the text that [new Date().toISOString()] returns at that instant. *)
Record Date := { epochMs : Z; isoString : string }.

(** The world a script runs in. *)
Record world := {
  files : gmap string string;   (* the regular files, by path *)
  written : list (string * string);
                                (* the writes so far, oldest first: path, content *)
  clock : nat -> Date;          (* the successive readings of the clock *)
  ticks : nat                   (* how many readings were consumed *)
}.

Definition existsSync (p : string) (w : world) : bool :=
  bool_decide (is_Some (files w !! p)).

Definition readFileSync (p : string) (w : world) : string :=
  default EmptyString (files w !! p).

(** A write that succeeds.  A write that the file system refuses, for want
    of a directory on the way to [p] for instance, is not modelled: it would
    stop the run with an exception of the system. *)
Definition writeFileSync (p content : string) (w : world) : world :=
  {| files := <[p := content]> (files w);
     written := written w ++ [(p, content)];
     clock := clock w;
     ticks := ticks w |}.

(** Reading the clock consumes one reading. *)
Definition readClock (w : world) : Date * world :=
  (clock w (ticks w),
   {| files := files w; written := written w; clock := clock w;
      ticks := S (ticks w) |}).

(** [path.join] (of a POSIX system) of segments that need no normalisation:
    the segments are joined with a slash as they are.  No segment of the
    scripts is empty, a dot segment or holds a slash when the entity name is
    a plain identifier ([plainName] below); on other names [path.join] would
    also normalise the result. *)
Definition path_join (segs : list string) : string := Js.join "/" segs.

(** The exceptions of the JavaScript runtime that the scripts can raise:
    reading a property of [undefined] is a [TypeError]. *)
Inductive exn := TypeError.

(** A computation that returns or throws. *)
Inductive result (A : Type) :=
  | Ok (a : A)
  | Throw (e : exn).
Arguments Ok {A} a.
Arguments Throw {A} e.

(** How a run of a script ends. *)
Inductive outcome :=
  | Completed                (* ran to the end *)
  | UsageExit                (* printed the usage and called [process.exit(1)] *)
  | Thrown (e : exn).        (* stopped by an uncaught exception *)

(** ** The generator of [libs/olympus/core] (source: [src/unnamed/part_000]) *)

Module CoreGen.

Import Js.

Record field := { name : string; type : string; isOptional : bool }.

(** The callback of [parseFields]: one field token.  [split] cuts the token
    at every colon and the destructuring keeps the first two segments; a
    missing or empty type is replaced by [string]. *)
Definition parseField (token : string) : field :=
  let segs := split ":" (trim token) in
  let name := nth 0 segs EmptyString in
  let type := segs !! 1%nat in
  let isOptional := includes name "?" in
  {| name := replace "?" EmptyString name;
     type := match type with
             | Some (String c r) => String c r
             | Some EmptyString | None => "string"
             end;
     isOptional := isOptional |}.

Definition parseFields (fieldsString : string) : list field :=
  map parseField (split "," fieldsString).

(** What a property read [typeMap[key]] can produce: a string of the table,
    or a member inherited from [Object.prototype] (the tables are object
    literals, and a property read looks through the prototype chain). *)
Inductive value :=
  | VString (s : string)
  | VObjectPrototype             (* the value of the accessor [__proto__] *)
  | VFunction (fname : string).  (* a built-in function such as [Object] *)

(** A value in a template literal. *)
Definition toText (v : value) : string :=
  match v with
  | VString s => s
  | VObjectPrototype => "[object Object]"
  | VFunction f => "function " +:+ f +:+ "() { [native code] }"
  end.

(** The members every object inherits from [Object.prototype]. *)
Definition objectPrototype : gmap string value :=
  list_to_map
    [ ("constructor", VFunction "Object");
      ("__proto__", VObjectPrototype);
      ("hasOwnProperty", VFunction "hasOwnProperty");
      ("isPrototypeOf", VFunction "isPrototypeOf");
      ("propertyIsEnumerable", VFunction "propertyIsEnumerable");
      ("toString", VFunction "toString");
      ("toLocaleString", VFunction "toLocaleString");
      ("valueOf", VFunction "valueOf");
      ("__defineGetter__", VFunction "__defineGetter__");
      ("__defineSetter__", VFunction "__defineSetter__");
      ("__lookupGetter__", VFunction "__lookupGetter__");
      ("__lookupSetter__", VFunction "__lookupSetter__") ].

(** [table[key] || fallback]: an own entry, else an inherited member, else
    (the read gave [undefined]) the fallback.  Every own entry is a non-empty
    string and every inherited member is an object, so a found value is
    never replaced by the fallback. *)
Definition lookupOr (table : gmap string string) (key fallback : string) : value :=
  match table !! key with
  | Some s => VString s
  | None => default (VString fallback) (objectPrototype !! key)
  end.

Definition typeScriptTypeMap : gmap string string :=
  list_to_map
    [ ("string", "string"); ("number", "number"); ("boolean", "boolean");
      ("date", "Date"); ("uuid", "string"); ("text", "string");
      ("int", "number"); ("float", "number"); ("decimal", "number") ].

Definition getTypeScriptType (type : string) : value :=
  lookupOr typeScriptTypeMap (toLowerCase type) "string".

Definition typeORMTypeMap : gmap string string :=
  list_to_map
    [ ("string", "varchar"); ("number", "numeric"); ("boolean", "boolean");
      ("date", "timestamp"); ("uuid", "uuid"); ("text", "text");
      ("int", "int"); ("float", "float"); ("decimal", "decimal") ].

Definition getTypeORMType (type : string) : value :=
  lookupOr typeORMTypeMap (toLowerCase type) "varchar".

Definition toPascalCase (str : string) : string :=
  toUpperCase (charAt0 str) +:+ slice1 str.

Definition toCamelCase (str : string) : string :=
  toLowerCase (charAt0 str) +:+ slice1 str.

Definition directory : string := "libs/olympus/core/src/lib".

(** One member of the generated interfaces. *)
Definition interfaceMember (field : field) : string :=
  "  " +:+ name field +:+ (if isOptional field then "?" else "") +:+ ": " +:+ toText (getTypeScriptType (type field)) +:+ ";".

Definition interfaceContent (entityName : string) (fields : list field) : string :=
  let entityPascal := toPascalCase entityName in
  "export interface " +:+ entityPascal +:+ " {
  id: string;
" +:+ join newline (map interfaceMember fields) +:+ "
  createdAt: Date;
  updatedAt: Date;
}

export interface Create" +:+ entityPascal +:+ "Dto {
" +:+ join newline (map interfaceMember fields) +:+ "
}

export interface Update" +:+ entityPascal +:+ "Dto {
" +:+ join newline (map interfaceMember fields) +:+ "
}
".

Definition serviceContent (entityName : string) : string :=
  let entityPascal := toPascalCase entityName in
  let entityCamel := toCamelCase entityName in
  "import { Injectable } from '@nestjs/common';
import { InjectRepository } from '@nestjs/typeorm';
import { Repository } from 'typeorm';
import { " +:+ entityPascal +:+ ", Create" +:+ entityPascal +:+ "Dto, Update" +:+ entityPascal +:+ "Dto } from './" +:+ entityName +:+ ".interface';

@Injectable()
export class " +:+ entityPascal +:+ "Service {
  constructor(
    @InjectRepository(" +:+ entityPascal +:+ ")
    private readonly " +:+ entityCamel +:+ "Repository: Repository<" +:+ entityPascal +:+ ">,
  ) {}

  async create(createDto: Create" +:+ entityPascal +:+ "Dto): Promise<" +:+ entityPascal +:+ "> {
    const " +:+ entityCamel +:+ " = this." +:+ entityCamel +:+ "Repository.create(createDto);
    return await this." +:+ entityCamel +:+ "Repository.save(" +:+ entityCamel +:+ ");
  }

  async findAll(): Promise<" +:+ entityPascal +:+ "[]> {
    return await this." +:+ entityCamel +:+ "Repository.find();
  }

  async findOne(id: string): Promise<" +:+ entityPascal +:+ " | null> {
    return await this." +:+ entityCamel +:+ "Repository.findOne({ where: { id } });
  }

  async update(id: string, updateDto: Update" +:+ entityPascal +:+ "Dto): Promise<" +:+ entityPascal +:+ " | null> {
    await this." +:+ entityCamel +:+ "Repository.update(id, updateDto);
    return await this.findOne(id);
  }

  async remove(id: string): Promise<void> {
    await this." +:+ entityCamel +:+ "Repository.delete(id);
  }
}
".

(** One column of the generated entity class. *)
Definition entityMember (field : field) : string :=
  "  @Column({ type: '" +:+ toText (getTypeORMType (type field)) +:+ "', nullable: " +:+ showBool (isOptional field) +:+ " })
  " +:+ name field +:+ (if isOptional field then "?" else "") +:+ ": " +:+ toText (getTypeScriptType (type field)) +:+ ";".

Definition entityContent (entityName : string) (fields : list field) : string :=
  let entityPascal := toPascalCase entityName in
  let entityCamel := toCamelCase entityName in
  "import { Entity, PrimaryGeneratedColumn, Column, CreateDateColumn, UpdateDateColumn } from 'typeorm';

@Entity('" +:+ entityCamel +:+ "s')
export class " +:+ entityPascal +:+ " {
  @PrimaryGeneratedColumn('uuid')
  id: string;

" +:+ join newline (map entityMember fields) +:+ "

  @CreateDateColumn()
  createdAt: Date;

  @UpdateDateColumn()
  updatedAt: Date;
}
".

Definition controllerContent (entityName : string) : string :=
  let entityPascal := toPascalCase entityName in
  let entityCamel := toCamelCase entityName in
  "import { Controller, Get, Post, Put, Delete, Param, Body, HttpCode, HttpStatus } from '@nestjs/common';
import { " +:+ entityPascal +:+ "Service } from './" +:+ entityName +:+ ".service';
import { Create" +:+ entityPascal +:+ "Dto, Update" +:+ entityPascal +:+ "Dto } from './" +:+ entityName +:+ ".interface';

@Controller('" +:+ entityCamel +:+ "s')
export class " +:+ entityPascal +:+ "Controller {
  constructor(private readonly " +:+ entityCamel +:+ "Service: " +:+ entityPascal +:+ "Service) {}

  @Post()
  @HttpCode(HttpStatus.CREATED)
  create(@Body() create" +:+ entityPascal +:+ "Dto: Create" +:+ entityPascal +:+ "Dto) {
    return this." +:+ entityCamel +:+ "Service.create(create" +:+ entityPascal +:+ "Dto);
  }

  @Get()
  findAll() {
    return this." +:+ entityCamel +:+ "Service.findAll();
  }

  @Get(':id')
  findOne(@Param('id') id: string) {
    return this." +:+ entityCamel +:+ "Service.findOne(id);
  }

  @Put(':id')
  update(@Param('id') id: string, @Body() update" +:+ entityPascal +:+ "Dto: Update" +:+ entityPascal +:+ "Dto) {
    return this." +:+ entityCamel +:+ "Service.update(id, update" +:+ entityPascal +:+ "Dto);
  }

  @Delete(':id')
  @HttpCode(HttpStatus.NO_CONTENT)
  remove(@Param('id') id: string) {
    return this." +:+ entityCamel +:+ "Service.remove(id);
  }
}
".

(** One column of the generated migration. *)
Definition migrationColumn (field : field) : string :=
  "          {
            name: '" +:+ name field +:+ "',
            type: '" +:+ toText (getTypeORMType (type field)) +:+ "',
            isNullable: " +:+ showBool (isOptional field) +:+ ",
          },".

Definition migrationContent (entityName : string) (fields : list field)
    (timestamp : Z) : string :=
  let entityPascal := toPascalCase entityName in
  let entityCamel := toCamelCase entityName in
  "import { MigrationInterface, QueryRunner, Table } from 'typeorm';

export class Create" +:+ entityPascal +:+ "Table" +:+ showZ timestamp +:+ " implements MigrationInterface {
  name = 'Create" +:+ entityPascal +:+ "Table" +:+ showZ timestamp +:+ "';

  public async up(queryRunner: QueryRunner): Promise<void> {
    await queryRunner.createTable(
      new Table({
        name: '" +:+ entityCamel +:+ "s',
        columns: [
          {
            name: 'id',
            type: 'uuid',
            isPrimary: true,
            generationStrategy: 'uuid',
            default: 'uuid_generate_v4()',
          },
" +:+ join newline (map migrationColumn fields) +:+ "
          {
            name: 'createdAt',
            type: 'timestamp',
            default: 'now()',
          },
          {
            name: 'updatedAt',
            type: 'timestamp',
            default: 'now()',
          },
        ],
      }),
      true,
    );
  }

  public async down(queryRunner: QueryRunner): Promise<void> {
    await queryRunner.dropTable('" +:+ entityCamel +:+ "s');
  }
}
".

(** The export lines of the generated files, for the index of the library. *)
Definition exports (entityName : string) : list string :=
  [ "export * from './lib/" +:+ entityName +:+ ".interface';";
    "export * from './lib/" +:+ entityName +:+ ".service';";
    "export * from './lib/" +:+ entityName +:+ ".entity';";
    "export * from './lib/" +:+ entityName +:+ ".controller';" ].

(** One round of the [forEach] over the export lines. *)
Definition addExport (indexContent exportLine : string) : string :=
  if negb (includes indexContent exportLine)
  then indexContent +:+ newline +:+ exportLine
  else indexContent.

(** The update of the text of [index.ts]. *)
Definition mergeExports (entityName indexContent : string) : string :=
  fold_left addExport (exports entityName) indexContent.

(** [path.join(directory, '../index.ts')], in normal form. *)
Definition indexPath : string := "libs/olympus/core/src/index.ts".

(** The default field specification. *)
Definition defaultFields : string := "name:string,description:string".

(** The script, run on the command-line arguments after the script name.
    The creation of the directories is left out: the world holds regular
    files only. *)
Definition main (args : list string) (w : world) : outcome * world :=
  match args !! 0%nat with
  | None | Some EmptyString => (UsageExit, w)
  | Some entityName =>
      let fieldsString :=
        match args !! 1%nat with
        | Some (String c r) => String c r
        | Some EmptyString | None => defaultFields
        end in
      let fields := parseFields fieldsString in
      let entityPascal := toPascalCase entityName in
      let '(now, w) := readClock w in
      let timestamp := epochMs now in
      let w := writeFileSync (path_join [directory; entityName +:+ ".interface.ts"])
                 (interfaceContent entityName fields) w in
      let w := writeFileSync (path_join [directory; entityName +:+ ".service.ts"])
                 (serviceContent entityName) w in
      let w := writeFileSync (path_join [directory; entityName +:+ ".entity.ts"])
                 (entityContent entityName fields) w in
      let w := writeFileSync (path_join [directory; entityName +:+ ".controller.ts"])
                 (controllerContent entityName) w in
      let w := writeFileSync
                 (path_join [directory; "migrations";
                             "Create" +:+ entityPascal +:+ "Table" +:+ showZ timestamp +:+ ".ts"])
                 (migrationContent entityName fields timestamp) w in
      let indexContent :=
        if existsSync indexPath w then readFileSync indexPath w else EmptyString in
      let w := writeFileSync indexPath (mergeExports entityName indexContent) w in
      (Completed, w)
  end.

End CoreGen.

(** ** The generator [scripts/generate-crud.js] *)

Module GenerateCrud.

Import Js.

Record field := {
  name : string;
  type : string;
  isOptional : bool;
  decorators : list string
}.

(** The first decorator after [decorators[0] = f(decorators[0])]. *)
Definition mapFirst (f : string -> string) (decorators : list string) : list string :=
  match decorators with
  | [] => []
  | d :: ds => f d :: ds
  end.

(** The callback of [parseFields]: one field token.  [split] cuts the token
    at every colon and the destructuring keeps the first two segments; with
    no colon [type] is [undefined] and [type.includes] throws. *)
Definition parseField (token : string) : result field :=
  let segs := split ":" (trim token) in
  let name := nth 0 segs EmptyString in
  match segs !! 1%nat with
  | None => Throw TypeError
  | Some type =>
      let isOptional := includes type "?" in
      let cleanType := replace "?" EmptyString type in
      let lower := toLowerCase cleanType in
      let '(finalType, decorators) :=
        if String.eqb lower "string" then ("string", ["@Column()"])
        else if String.eqb lower "number"
          then ("number", ["@Column({ type: " +:+ dq +:+ "int" +:+ dq +:+ " })"])
        else if String.eqb lower "boolean"
          then ("boolean", ["@Column({ type: " +:+ dq +:+ "boolean" +:+ dq +:+ " })"])
        else if String.eqb lower "date"
          then ("Date", ["@Column({ type: " +:+ dq +:+ "timestamp" +:+ dq +:+ " })"])
        else (cleanType, ["@Column()"]) in
      let decorators :=
        if isOptional
        then mapFirst (replace "@Column(," "@Column(")
               (mapFirst (replace ")" ", { nullable: true })") decorators)
        else decorators in
      Ok {| name := trim name; type := finalType; isOptional := isOptional;
            decorators := decorators |}
  end.

(** [tokens.map(callback)], stopping at the first exception. *)
Fixpoint mapTokens (tokens : list string) : result (list field) :=
  match tokens with
  | [] => Ok []
  | token :: rest =>
      match parseField token with
      | Throw e => Throw e
      | Ok field =>
          match mapTokens rest with
          | Throw e => Throw e
          | Ok fields => Ok (field :: fields)
          end
      end
  end.

Definition parseFields (fieldsString : string) : result (list field) :=
  mapTokens (split "," fieldsString).

Definition toPascalCase (str : string) : string :=
  toUpperCase (charAt0 str) +:+ slice1 str.

Definition toCamelCase (str : string) : string :=
  toLowerCase (charAt0 str) +:+ slice1 str.

(** [str.replace(/([A-Z])/g, '_$1')]: an underscore before every upper-case
    letter. *)
Fixpoint underscoreUpper (str : string) : string :=
  match str with
  | EmptyString => EmptyString
  | String c r =>
      if isUpperChar c then String "_" (String c (underscoreUpper r))
      else String c (underscoreUpper r)
  end.

(** [str.replace(/^_/, '')]. *)
Definition dropLeadingUnderscore (str : string) : string :=
  match str with
  | String "_" r => r
  | _ => str
  end.

Definition toSnakeCase (str : string) : string :=
  dropLeadingUnderscore (toLowerCase (underscoreUpper str)).

(** What a round of the [forEach] of [generateEntity] appends. *)
Definition entityMember (field : field) : string :=
  ("  " +:+ join (newline +:+ "  ") (decorators field) +:+ "
") +:+
  ("  " +:+ name field +:+ ": " +:+ type field +:+ (if isOptional field then " | null" else "") +:+ ";

").

Definition generateEntity (entityName : string) (fields : list field) : string :=
  let pascalCase := toPascalCase entityName in
  let snakeCase := toSnakeCase pascalCase in
  let entityContent :=
    "import { Entity, PrimaryGeneratedColumn, Column } from 'typeorm';

@Entity('" +:+ snakeCase +:+ "')
export class " +:+ pascalCase +:+ " {
  @PrimaryGeneratedColumn()
  id: number;

" in
  let entityContent := appendEach entityMember fields entityContent in
  entityContent +:+ "}".

Definition generateModule (entityName : string) : string :=
  let pascalCase := toPascalCase entityName in
  "import { Module } from '@nestjs/common';
import { TypeOrmModule } from '@nestjs/typeorm';
import { " +:+ pascalCase +:+ " } from './" +:+ entityName +:+ ".entity';
import { " +:+ pascalCase +:+ "Service } from './" +:+ entityName +:+ ".service';
import { " +:+ pascalCase +:+ "Controller } from './" +:+ entityName +:+ ".controller';

@Module({
  imports: [TypeOrmModule.forFeature([" +:+ pascalCase +:+ "])],
  controllers: [" +:+ pascalCase +:+ "Controller],
  providers: [" +:+ pascalCase +:+ "Service],
  exports: [" +:+ pascalCase +:+ "Service],
})
export class " +:+ pascalCase +:+ "Module {}".

Definition generateService (entityName : string) : string :=
  let pascalCase := toPascalCase entityName in
  let camelCase := toCamelCase entityName in
  "import { Injectable } from '@nestjs/common';
import { InjectRepository } from '@nestjs/typeorm';
import { Repository } from 'typeorm';
import { " +:+ pascalCase +:+ " } from './" +:+ entityName +:+ ".entity';
import { Create" +:+ pascalCase +:+ "Dto } from './dto/create-" +:+ entityName +:+ ".dto';
import { Update" +:+ pascalCase +:+ "Dto } from './dto/update-" +:+ entityName +:+ ".dto';

@Injectable()
export class " +:+ pascalCase +:+ "Service {
  constructor(
    @InjectRepository(" +:+ pascalCase +:+ ")
    private readonly " +:+ camelCase +:+ "Repository: Repository<" +:+ pascalCase +:+ ">,
  ) {}

  async create(create" +:+ pascalCase +:+ "Dto: Create" +:+ pascalCase +:+ "Dto): Promise<" +:+ pascalCase +:+ "> {
    const " +:+ camelCase +:+ " = this." +:+ camelCase +:+ "Repository.create(create" +:+ pascalCase +:+ "Dto);
    return this." +:+ camelCase +:+ "Repository.save(" +:+ camelCase +:+ ");
  }

  async findAll(): Promise<" +:+ pascalCase +:+ "[]> {
    return this." +:+ camelCase +:+ "Repository.find();
  }

  async findOne(id: number): Promise<" +:+ pascalCase +:+ "> {
    return this." +:+ camelCase +:+ "Repository.findOne({ where: { id } });
  }

  async update(id: number, update" +:+ pascalCase +:+ "Dto: Update" +:+ pascalCase +:+ "Dto): Promise<" +:+ pascalCase +:+ "> {
    await this." +:+ camelCase +:+ "Repository.update(id, update" +:+ pascalCase +:+ "Dto);
    return this.findOne(id);
  }

  async remove(id: number): Promise<void> {
    await this." +:+ camelCase +:+ "Repository.delete(id);
  }
}".

Definition generateController (entityName : string) : string :=
  let pascalCase := toPascalCase entityName in
  let camelCase := toCamelCase entityName in
  let snakeCase := toSnakeCase pascalCase in
  "import {
  Controller,
  Get,
  Post,
  Body,
  Patch,
  Param,
  Delete,
  ParseIntPipe,
} from '@nestjs/common';
import { " +:+ pascalCase +:+ "Service } from './" +:+ entityName +:+ ".service';
import { Create" +:+ pascalCase +:+ "Dto } from './dto/create-" +:+ entityName +:+ ".dto';
import { Update" +:+ pascalCase +:+ "Dto } from './dto/update-" +:+ entityName +:+ ".dto';

@Controller('" +:+ snakeCase +:+ "')
export class " +:+ pascalCase +:+ "Controller {
  constructor(private readonly " +:+ camelCase +:+ "Service: " +:+ pascalCase +:+ "Service) {}

  @Post()
  create(@Body() create" +:+ pascalCase +:+ "Dto: Create" +:+ pascalCase +:+ "Dto) {
    return this." +:+ camelCase +:+ "Service.create(create" +:+ pascalCase +:+ "Dto);
  }

  @Get()
  findAll() {
    return this." +:+ camelCase +:+ "Service.findAll();
  }

  @Get(':id')
  findOne(@Param('id', ParseIntPipe) id: number) {
    return this." +:+ camelCase +:+ "Service.findOne(id);
  }

  @Patch(':id')
  update(
    @Param('id', ParseIntPipe) id: number,
    @Body() update" +:+ pascalCase +:+ "Dto: Update" +:+ pascalCase +:+ "Dto,
  ) {
    return this." +:+ camelCase +:+ "Service.update(id, update" +:+ pascalCase +:+ "Dto);
  }

  @Delete(':id')
  remove(@Param('id', ParseIntPipe) id: number) {
    return this." +:+ camelCase +:+ "Service.remove(id);
  }
}".

(** [set.add(x)] on a set kept in insertion order. *)
Definition setAdd (x : string) (set : list string) : list string :=
  if existsb (String.eqb x) set then set else set ++ [x].

(** A round of the first [forEach] of [generateCreateDto]. *)
Definition addValidationImports (validationImports : list string) (field : field)
    : list string :=
  if negb (includes (name field) "id") && negb (isOptional field) then
    let s := setAdd "IsNotEmpty" validationImports in
    let s := if String.eqb (type field) "number" then setAdd "IsNumber" s else s in
    let s := if String.eqb (type field) "string" then setAdd "IsString" s else s in
    if String.eqb (type field) "boolean" then setAdd "IsBoolean" s else s
  else validationImports.

(** What a round of the second [forEach] of [generateCreateDto] appends. *)
Definition createDtoMember (field : field) : string :=
  if negb (includes (name field) "id") then
    if isOptional field then
      "  " +:+ name field +:+ "?: " +:+ type field +:+ ";
"
    else
      "  @IsNotEmpty()" +:+
      (if String.eqb (type field) "number" then "
  @IsNumber()" else EmptyString) +:+
      (if String.eqb (type field) "string" then "
  @IsString()" else EmptyString) +:+
      (if String.eqb (type field) "boolean" then "
  @IsBoolean()" else EmptyString) +:+
      ("
  " +:+ name field +:+ ": " +:+ type field +:+ ";

")
  else EmptyString.

Definition generateCreateDto (entityName : string) (fields : list field) : string :=
  let pascalCase := toPascalCase entityName in
  let validationImports := fold_left addValidationImports fields [] in
  let content := EmptyString in
  let content :=
    if (0 <? length validationImports)%nat then
      content +:+ ("import { " +:+ join ", " validationImports +:+ " } from 'class-validator';

")
    else content in
  let content := content +:+ ("export class Create" +:+ pascalCase +:+ "Dto {
") in
  let content := appendEach createDtoMember fields content in
  content +:+ "}".

Definition generateUpdateDto (entityName : string) : string :=
  let pascalCase := toPascalCase entityName in
  "import { PartialType } from '@nestjs/mapped-types';
import { Create" +:+ pascalCase +:+ "Dto } from './create-" +:+ entityName +:+ ".dto';

export class Update" +:+ pascalCase +:+ "Dto extends PartialType(Create" +:+ pascalCase +:+ "Dto) {}".

Definition generateAngularService (entityName : string) : string :=
  let pascalCase := toPascalCase entityName in
  let camelCase := toCamelCase entityName in
  "import { Injectable, inject } from '@angular/core';
import { HttpClient } from '@angular/common/http';
import { Observable } from 'rxjs';
import { I" +:+ pascalCase +:+ " } from '../models/" +:+ entityName +:+ "';

@Injectable({
  providedIn: 'root'
})
export class " +:+ pascalCase +:+ "Service {
  private apiUrl = '/api/" +:+ camelCase +:+ "';
  private http = inject(HttpClient);

  getAll(): Observable<I" +:+ pascalCase +:+ "[]> {
    return this.http.get<I" +:+ pascalCase +:+ "[]>(this.apiUrl);
  }

  getById(id: number): Observable<I" +:+ pascalCase +:+ "> {
    return this.http.get<I" +:+ pascalCase +:+ ">(" +:+ bq +:+ "${this.apiUrl}/${id}" +:+ bq +:+ ");
  }

  create(" +:+ camelCase +:+ ": Omit<I" +:+ pascalCase +:+ ", 'id'>): Observable<I" +:+ pascalCase +:+ "> {
    return this.http.post<I" +:+ pascalCase +:+ ">(this.apiUrl, " +:+ camelCase +:+ ");
  }

  update(id: number, " +:+ camelCase +:+ ": Partial<I" +:+ pascalCase +:+ ">): Observable<I" +:+ pascalCase +:+ "> {
    return this.http.patch<I" +:+ pascalCase +:+ ">(" +:+ bq +:+ "${this.apiUrl}/${id}" +:+ bq +:+ ", " +:+ camelCase +:+ ");
  }

  delete(id: number): Observable<void> {
    return this.http.delete<void>(" +:+ bq +:+ "${this.apiUrl}/${id}" +:+ bq +:+ ");
  }
}".

(** What a round of the [forEach] of [generateInterface] appends. *)
Definition interfaceMember (field : field) : string :=
  "  " +:+ name field +:+ ": " +:+ type field +:+ (if isOptional field then " | null" else "") +:+ ";
".

Definition generateInterface (entityName : string) (fields : list field) : string :=
  let pascalCase := toPascalCase entityName in
  let interfaceContent :=
    "export interface I" +:+ pascalCase +:+ " {
  id: number;

" in
  let interfaceContent := appendEach interfaceMember fields interfaceContent in
  interfaceContent +:+ "}".

(** [s.replace(/[-:T]/g, '')]. *)
Fixpoint stripDateMarks (s : string) : string :=
  match s with
  | EmptyString => EmptyString
  | String c r =>
      if Ascii.eqb c "-" || Ascii.eqb c ":" || Ascii.eqb c "T"
      then stripDateMarks r
      else String c (stripDateMarks r)
  end.

(** The compact timestamp of a reading of the clock:
    [date.toISOString().replace(/[-:T]/g, '').split('.')[0]]. *)
Definition compactTimestamp (date : Date) : string :=
  nth 0 (split "." (stripDateMarks (isoString date))) EmptyString.

(** The column type that [generateMigration] derives from a field. *)
Definition migrationColumnType (field : field) : string :=
  let columnType := "'varchar'" in
  let columnType := if String.eqb (type field) "number" then "'int'" else columnType in
  let columnType := if String.eqb (type field) "boolean" then "'boolean'" else columnType in
  if String.eqb (type field) "Date" then "'timestamp'" else columnType.

(** What a round of the [forEach] of [generateMigration] appends. *)
Definition migrationColumn (field : field) : string :=
  if negb (includes (name field) "id") then
    let columnType := migrationColumnType field in
    "          {
            name: '" +:+ name field +:+ "',
            type: " +:+ columnType +:+ ",
            isNullable: " +:+ (if isOptional field then "true" else "false") +:+ ",
          },
"
  else EmptyString.

Record migration := { content : string; timestamp : string }.

Definition generateMigration (entityName : string) (fields : list field)
    (w : world) : migration * world :=
  let pascalCase := toPascalCase entityName in
  let snakeCase := toSnakeCase pascalCase in
  let '(now, w) := readClock w in
  let timestamp := compactTimestamp now in
  let migrationContent :=
    "import { MigrationInterface, QueryRunner, Table } from 'typeorm';

export class Create" +:+ pascalCase +:+ "Table" +:+ timestamp +:+ " implements MigrationInterface {
  public async up(queryRunner: QueryRunner): Promise<void> {
    await queryRunner.createTable(
      new Table({
        name: '" +:+ snakeCase +:+ "',
        columns: [
          {
            name: 'id',
            type: 'int',
            isPrimary: true,
            isGenerated: true,
            generationStrategy: 'increment',
          },
" in
  let migrationContent := appendEach migrationColumn fields migrationContent in
  let migrationContent := migrationContent +:+
    "        ],
      }),
      true,
    );
  }

  public async down(queryRunner: QueryRunner): Promise<void> {
    await queryRunner.dropTable('" +:+ snakeCase +:+ "');
  }
}" in
  ({| content := migrationContent; timestamp := timestamp |}, w).

(** The export line of the models index and of the services index. *)
Definition modelsExportLine (entityName : string) : string :=
  "export * from './" +:+ entityName +:+ "';".

Definition serviceExportLine (entityName : string) : string :=
  "export * from './" +:+ entityName +:+ ".service';".

Definition modelsPlaceholder : string := "// Export all model interfaces here".
Definition servicesPlaceholder : string := "// Export all services here".

(** The new text of an index file whose text is [indexContent]: unchanged
    when the export line occurs in it; the export line alone when the text is
    blank or is the placeholder comment; else the text followed by the export
    line. *)
Definition mergeExport (placeholder exportLine indexContent : string) : string :=
  if negb (includes indexContent exportLine) then
    if String.eqb (trim indexContent) EmptyString
       || String.eqb (trim indexContent) placeholder
    then exportLine +:+ newline
    else indexContent +:+ exportLine +:+ newline
  else indexContent.

(** The update of an index file: read if it exists, written only when the
    export line was missing. *)
Definition updateIndex (placeholder exportLine indexPath : string) (w : world) : world :=
  let indexContent :=
    if existsSync indexPath w then readFileSync indexPath w else EmptyString in
  if negb (includes indexContent exportLine)
  then writeFileSync indexPath (mergeExport placeholder exportLine indexContent) w
  else w.

Definition targetPath (entityName : string) : string :=
  path_join ["apps"; "zeus"; "src"; "app"; entityName].
Definition migrationPath : string := path_join ["apps"; "zeus"; "src"; "migrations"].
Definition interfacePath : string :=
  path_join ["libs"; "olympus"; "core"; "src"; "lib"; "models"].
Definition modelsIndexPath : string :=
  path_join ["libs"; "olympus"; "core"; "src"; "lib"; "models"; "index.ts"].
Definition servicePath : string :=
  path_join ["libs"; "olympus"; "core"; "src"; "lib"; "services"].
Definition servicesIndexPath : string :=
  path_join ["libs"; "olympus"; "core"; "src"; "lib"; "services"; "index.ts"].

(** The script, run on the command-line arguments after the script name.
    The creation of the directories is left out: the world holds regular
    files only. *)
Definition main (args : list string) (w : world) : outcome * world :=
  match args with
  | entityName :: fieldsString :: _ =>
      match parseFields fieldsString with
      | Throw e => (Thrown e, w)
      | Ok fields =>
          let targetPath := targetPath entityName in
          let w := writeFileSync (path_join [targetPath; entityName +:+ ".entity.ts"])
                     (generateEntity entityName fields) w in
          let w := writeFileSync (path_join [targetPath; entityName +:+ ".module.ts"])
                     (generateModule entityName) w in
          let w := writeFileSync (path_join [targetPath; entityName +:+ ".service.ts"])
                     (generateService entityName) w in
          let w := writeFileSync (path_join [targetPath; entityName +:+ ".controller.ts"])
                     (generateController entityName) w in
          let w := writeFileSync
                     (path_join [targetPath; "dto"; "create-" +:+ entityName +:+ ".dto.ts"])
                     (generateCreateDto entityName fields) w in
          let w := writeFileSync
                     (path_join [targetPath; "dto"; "update-" +:+ entityName +:+ ".dto.ts"])
                     (generateUpdateDto entityName) w in
          let '(migration, w) := generateMigration entityName fields w in
          let w := writeFileSync
                     (path_join [migrationPath;
                                 timestamp migration +:+ "_create_"
                                 +:+ toSnakeCase (toPascalCase entityName) +:+ "_table.ts"])
                     (content migration) w in
          let w := writeFileSync (path_join [interfacePath; entityName +:+ ".ts"])
                     (generateInterface entityName fields) w in
          let w := writeFileSync (path_join [servicePath; entityName +:+ ".service.ts"])
                     (generateAngularService entityName) w in
          let w := updateIndex modelsPlaceholder (modelsExportLine entityName)
                     modelsIndexPath w in
          let w := updateIndex servicesPlaceholder (serviceExportLine entityName)
                     servicesIndexPath w in
          (Completed, w)
      end
  | _ => (UsageExit, w)
  end.

End GenerateCrud.

(** ** Notions used to state the properties *)

(** The lines of a text, and the set of its distinct lines. *)
Definition lines (text : string) : list string := Js.split "010"%char text.

Definition lineSet (text : string) : gset string := list_to_set (lines text).

(** A world to run the scripts in: no file yet, and a clock that advances by
    one second per reading. *)
Definition sampleDate (n : nat) : Date :=
  {| epochMs := 1700000000000 + 1000 * Z.of_nat n;
     isoString := "2023-11-14T22:13:2" +:+ Js.showZ (Z.of_nat n) +:+ ".000Z" |}.

Definition sampleWorld : world :=
  {| files := ∅; written := []; clock := sampleDate; ticks := 0 |}.

(** Whether a string holds an upper-case letter. *)
Fixpoint hasUpper (s : string) : bool :=
  match s with
  | EmptyString => false
  | String c r => Js.isUpperChar c || hasUpper r
  end.

(** The type mapping as the specification words it: from a lower-case type
    token to the value type and the column type, with text and varchar for
    every other token. *)
Definition specResolvedTypes (token : string) : string * string :=
  if String.eqb token "string" then ("string", "varchar")
  else if String.eqb token "number" then ("number", "numeric")
  else if String.eqb token "boolean" then ("boolean", "boolean")
  else if String.eqb token "date" then ("Date", "timestamp")
  else if String.eqb token "uuid" then ("string", "uuid")
  else if String.eqb token "text" then ("string", "text")
  else if String.eqb token "int" then ("number", "int")
  else if String.eqb token "float" then ("number", "float")
  else if String.eqb token "decimal" then ("number", "decimal")
  else ("string", "varchar").

(** The type mapping of [generate-crud.js], read off its [switch] and the
    tests of its migration: from a type token (its marker removed) to the value
    type, the column type that the decorator names (none for a bare
    [@Column()]) and the column type of the migration. *)
Definition crudTypes (cleanType : string) : string * option string * string :=
  let token := Js.toLowerCase cleanType in
  if String.eqb token "string" then ("string", None, "'varchar'")
  else if String.eqb token "number" then ("number", Some "int", "'int'")
  else if String.eqb token "boolean" then ("boolean", Some "boolean", "'boolean'")
  else if String.eqb token "date" then ("Date", Some "timestamp", "'timestamp'")
  else (cleanType, None, "'varchar'").

(** The text of a column decorator with the given column type and
    nullability, as [generate-crud.js] comes to write it. *)
Definition crudDecorator (columnType : option string) (nullable : bool) : string :=
  match columnType, nullable with
  | None, false => "@Column()"
  | None, true => "@Column( { nullable: true })"
  | Some t, false => "@Column({ type: " +:+ Js.dq +:+ t +:+ Js.dq +:+ " })"
  | Some t, true =>
      "@Column({ type: " +:+ Js.dq +:+ t +:+ Js.dq +:+ " }, { nullable: true })"
  end.

(** The files after the writes of a log, oldest first, on the files [m]. *)
Definition replay (log : list (string * string)) (m : gmap string string)
    : gmap string string :=
  fold_left (λ m entry, <[entry.1 := entry.2]> m) log m.

(** Whether a string is made of 7-bit ASCII characters only: the strings on
    which the case conversions and [trim] of this file are those of
    JavaScript. *)
Fixpoint isAscii (s : string) : bool :=
  match s with
  | EmptyString => true
  | String c r => (nat_of_ascii c <? 128)%nat && isAscii r
  end.

(** Whether an entity name is a single plain path segment: not empty, not a
    dot segment, and without a slash.  On such names [path.join] has nothing
    to normalise and gives the segments joined by slashes. *)
Definition plainName (s : string) : bool :=
  negb (String.eqb s "") && negb (String.eqb s ".") && negb (String.eqb s "..")
  && negb (Js.includes s "/").


(** Whether a path is in the normal form of [path.join]: cut at the
    slashes, it has no empty segment and no dot segment.  [path.join] gives
    such a path as it is. *)
Definition normalPath (p : string) : bool := forallb plainName (Js.split "/" p).

(** The characters that [compactTimestamp] removes or cuts at. *)
Definition isDateMark (c : ascii) : bool :=
  Ascii.eqb c "-" || Ascii.eqb c ":" || Ascii.eqb c "T" || Ascii.eqb c ".".

Fixpoint noDateMark (s : string) : bool :=
  match s with
  | EmptyString => true
  | String c r => negb (isDateMark c) && noDateMark r
  end.

(** Helpers of the proof search below: whether one of two strings is a
    prefix of the other, the first position of [s] from which [s] and [p]
    agree in this sense, and the first [n] characters of a string. *)
Fixpoint agree (p s : string) : bool :=
  match p, s with
  | EmptyString, _ | _, EmptyString => true
  | String a p', String b s' => Ascii.eqb a b && agree p' s'
  end.

Fixpoint firstAgree (p s : string) : nat :=
  if agree p s then O
  else match s with
       | EmptyString => O
       | String _ r => S (firstAgree p r)
       end.

Fixpoint takeStr (n : nat) (s : string) : string :=
  match n, s with
  | O, _ | _, EmptyString => EmptyString
  | S m, String c r => String c (takeStr m r)
  end.

(** ** Facts about the string primitives *)

Lemma sapp_nil_l (s : string) : "" +:+ s = s.
Proof. reflexivity. Qed.

Lemma sapp_cons (c : ascii) (a b : string) : String c a +:+ b = String c (a +:+ b).
Proof. reflexivity. Qed.

Lemma sapp_nil_r (s : string) : s +:+ "" = s.
Proof. induction s as [|c s IH]; [reflexivity|]. rewrite sapp_cons. by f_equal. Qed.

Lemma sapp_assoc (a b c : string) : (a +:+ b) +:+ c = a +:+ (b +:+ c).
Proof.
  induction a as [|x a IH]; [reflexivity|].
  rewrite !sapp_cons. by f_equal.
Qed.

Lemma startsWith_refl_app (p s : string) : Js.startsWith p (p +:+ s) = true.
Proof.
  induction p as [|c p IH]; [reflexivity|].
  rewrite sapp_cons. simpl. by rewrite Ascii.eqb_refl.
Qed.

Lemma startsWith_app_l (p a b : string) :
  Js.startsWith p a = true → Js.startsWith p (a +:+ b) = true.
Proof.
  revert a. induction p as [|c p IH]; intros a H; [reflexivity|].
  destruct a as [|d a]; [discriminate|].
  rewrite sapp_cons. simpl in *.
  apply andb_true_iff in H as [-> H]. simpl. by apply IH.
Qed.

Lemma includes_unfold (s p : string) :
  Js.includes s p =
  Js.startsWith p s || match s with "" => false | String _ r => Js.includes r p end.
Proof. by destruct s. Qed.

Lemma includes_startsWith (s p : string) :
  Js.startsWith p s = true → Js.includes s p = true.
Proof. intros H. rewrite includes_unfold, H. reflexivity. Qed.

Lemma includes_app_r (a b p : string) :
  Js.includes b p = true → Js.includes (a +:+ b) p = true.
Proof.
  intros H. induction a as [|c a IH]; [exact H|].
  rewrite sapp_cons, includes_unfold, IH. apply orb_true_r.
Qed.

Lemma includes_app_l (a b p : string) :
  Js.includes a p = true → Js.includes (a +:+ b) p = true.
Proof.
  induction a as [|c a IH]; intros H.
  - rewrite includes_unfold in H. rewrite orb_false_r in H.
    apply includes_startsWith. by apply (startsWith_app_l p "" b).
  - rewrite includes_unfold in H. apply orb_true_iff in H as [H|H].
    + apply includes_startsWith. by apply startsWith_app_l.
    + rewrite sapp_cons, includes_unfold, (IH H). apply orb_true_r.
Qed.

Lemma includes_app_mid (a p b : string) : Js.includes (a +:+ p +:+ b) p = true.
Proof. apply includes_app_r, includes_startsWith, startsWith_refl_app. Qed.

(** ** Merging export lines into an index (C1) *)

Lemma addExport_includes (content line : string) :
  Js.includes (CoreGen.addExport content line) line = true.
Proof.
  unfold CoreGen.addExport.
  destruct (Js.includes content line) eqn:H; simpl; [exact H|].
  apply includes_app_r. rewrite <- (sapp_nil_r line) at 1. apply includes_app_mid.
Qed.

Lemma addExport_keeps (content line other : string) :
  Js.includes content other = true →
  Js.includes (CoreGen.addExport content line) other = true.
Proof.
  intros H. unfold CoreGen.addExport.
  destruct (Js.includes content line); simpl; [exact H|].
  by apply includes_app_l.
Qed.

Lemma fold_addExport_keeps (ls : list string) (content other : string) :
  Js.includes content other = true →
  Js.includes (fold_left CoreGen.addExport ls content) other = true.
Proof.
  revert content. induction ls as [|l ls IH]; intros content H; [exact H|].
  simpl. apply IH. by apply addExport_keeps.
Qed.

Lemma fold_addExport_includes (ls : list string) (content line : string) :
  line ∈ ls → Js.includes (fold_left CoreGen.addExport ls content) line = true.
Proof.
  revert content. induction ls as [|l ls IH]; intros content Hin.
  - by apply elem_of_nil in Hin.
  - simpl. apply elem_of_cons in Hin as [->|Hin].
    + apply fold_addExport_keeps, addExport_includes.
    + by apply IH.
Qed.

Lemma fold_addExport_skip (ls : list string) (content : string) :
  (∀ line, line ∈ ls → Js.includes content line = true) →
  fold_left CoreGen.addExport ls content = content.
Proof.
  induction ls as [|l ls IH]; intros H; [reflexivity|].
  simpl. unfold CoreGen.addExport at 2.
  rewrite (H l) by apply list_elem_of_here. simpl.
  apply IH. intros line Hin. apply H. by apply list_elem_of_further.
Qed.

Lemma mergeExport_includes (placeholder line content : string) :
  Js.includes (GenerateCrud.mergeExport placeholder line content) line = true.
Proof.
  unfold GenerateCrud.mergeExport.
  destruct (Js.includes content line) eqn:H; simpl; [exact H|].
  destruct (_ || _).
  - apply includes_startsWith, startsWith_refl_app.
  - apply includes_app_mid.
Qed.

Lemma core_mergeExports_idempotent (entityName content : string) :
  CoreGen.mergeExports entityName (CoreGen.mergeExports entityName content)
  = CoreGen.mergeExports entityName content.
Proof.
  unfold CoreGen.mergeExports at 1. apply fold_addExport_skip.
  intros line Hin. unfold CoreGen.mergeExports.
  by apply fold_addExport_includes.
Qed.

Lemma crud_mergeExport_idempotent (placeholder line content : string) :
  GenerateCrud.mergeExport placeholder line
    (GenerateCrud.mergeExport placeholder line content)
  = GenerateCrud.mergeExport placeholder line content.
Proof.
  unfold GenerateCrud.mergeExport at 1. by rewrite mergeExport_includes.
Qed.

(** ** Facts about splitting and single characters *)

Lemma includes_char_cons (c d : ascii) (s : string) :
  Js.includes (String d s) (String c "") = Ascii.eqb c d || Js.includes s (String c "").
Proof.
  rewrite includes_unfold. simpl. destruct s; by rewrite andb_true_r.
Qed.

Lemma includes_char_app (c : ascii) (a b : string) :
  Js.includes (a +:+ b) (String c "")
  = Js.includes a (String c "") || Js.includes b (String c "").
Proof.
  induction a as [|d a IH]; [reflexivity|].
  by rewrite sapp_cons, !includes_char_cons, IH, orb_assoc.
Qed.

Lemma split_nonempty (c : ascii) (s : string) : Js.split c s ≠ [].
Proof.
  destruct s as [|d s]; simpl; [discriminate|].
  destruct (Ascii.eqb d c); [discriminate|].
  destruct (Js.split c s); discriminate.
Qed.

Lemma split_no_sep (c : ascii) (s : string) :
  Js.includes s (String c "") = false → Js.split c s = [s].
Proof.
  induction s as [|d s IH]; intros H; [reflexivity|].
  rewrite includes_char_cons in H. apply orb_false_iff in H as [Hd Hs].
  simpl. rewrite eqb_sym, Hd, (IH Hs). reflexivity.
Qed.

Lemma split_app_sep (c : ascii) (a b : string) :
  Js.includes a (String c "") = false →
  Js.split c (a +:+ String c b) = a :: Js.split c b.
Proof.
  induction a as [|d a IH]; intros H.
  - rewrite sapp_nil_l. simpl. by rewrite Ascii.eqb_refl.
  - rewrite includes_char_cons in H. apply orb_false_iff in H as [Hd Ha].
    rewrite sapp_cons. simpl. rewrite eqb_sym, Hd, (IH Ha). reflexivity.
Qed.

(** The segments of a token with one colon, and with two. *)
Lemma split_one_colon (a b : string) :
  Js.includes a ":" = false → Js.includes b ":" = false →
  Js.split ":" (a +:+ ":" +:+ b) = [a; b].
Proof.
  intros Ha Hb. change (":" +:+ b) with (String ":" b).
  by rewrite split_app_sep, (split_no_sep _ b).
Qed.

Lemma split_two_colons (a b rest : string) :
  Js.includes a ":" = false → Js.includes b ":" = false →
  ∃ more, Js.split ":" (a +:+ ":" +:+ b +:+ ":" +:+ rest) = a :: b :: more.
Proof.
  intros Ha Hb. change (":" +:+ b +:+ ":" +:+ rest) with (String ":" (b +:+ String ":" rest)).
  rewrite split_app_sep, split_app_sep by done. eauto.
Qed.

Lemma replace_no_match (c : ascii) (rep s : string) :
  Js.includes s (String c "") = false → Js.replace (String c "") rep s = s.
Proof.
  induction s as [|d s IH]; intros H; [reflexivity|].
  rewrite includes_char_cons in H. apply orb_false_iff in H as [Hd Hs].
  simpl. rewrite Hd. simpl. by rewrite (IH Hs).
Qed.

Lemma replace_marker_end (c : ascii) (s : string) :
  Js.includes s (String c "") = false →
  Js.replace (String c "") "" (s +:+ String c "") = s.
Proof.
  induction s as [|d s IH]; intros H.
  - simpl. by rewrite Ascii.eqb_refl.
  - rewrite includes_char_cons in H. apply orb_false_iff in H as [Hd Hs].
    rewrite sapp_cons. simpl. rewrite Hd. simpl. by rewrite (IH Hs).
Qed.

Lemma includes_char_trimStart (c : ascii) (s : string) :
  Js.includes s (String c "") = false →
  Js.includes (Js.trimStart s) (String c "") = false.
Proof.
  induction s as [|d s IH]; intros H; [reflexivity|].
  simpl. destruct (Js.isWhite d); [|exact H].
  rewrite includes_char_cons in H. apply orb_false_iff in H as [_ Hs]. by apply IH.
Qed.

Lemma includes_char_trimEnd (c : ascii) (s : string) :
  Js.includes s (String c "") = false →
  Js.includes (Js.trimEnd s) (String c "") = false.
Proof.
  induction s as [|d s IH]; intros H; [reflexivity|].
  rewrite includes_char_cons in H. apply orb_false_iff in H as [Hd Hs].
  specialize (IH Hs). simpl. destruct (Js.trimEnd s) as [|e r].
  - destruct (Js.isWhite d); [reflexivity|].
    by rewrite includes_char_cons, Hd.
  - by rewrite includes_char_cons, Hd, IH.
Qed.

Lemma includes_char_trim (c : ascii) (s : string) :
  Js.includes s (String c "") = false →
  Js.includes (Js.trim s) (String c "") = false.
Proof. intros H. by apply includes_char_trimEnd, includes_char_trimStart. Qed.

(** ** The field parsers on the segments of a token *)

(** The type that the parser of [libs/olympus/core] keeps for the second
    segment of a token. *)
Lemma core_parseField_segments (token nm ty : string) (more : list string) :
  Js.split ":" (Js.trim token) = nm :: ty :: more →
  CoreGen.parseField token
  = {| CoreGen.name := Js.replace "?" "" nm;
       CoreGen.type := match ty with "" => "string" | _ => ty end;
       CoreGen.isOptional := Js.includes nm "?" |}.
Proof.
  intros H. unfold CoreGen.parseField. rewrite H. simpl. by destruct ty.
Qed.

Lemma core_parseField_one_segment (token : string) :
  Js.includes (Js.trim token) ":" = false →
  CoreGen.parseField token
  = {| CoreGen.name := Js.replace "?" "" (Js.trim token);
       CoreGen.type := "string";
       CoreGen.isOptional := Js.includes (Js.trim token) "?" |}.
Proof.
  intros H. unfold CoreGen.parseField. by rewrite (split_no_sep _ _ H).
Qed.

Lemma crud_parseField_segments (token nm ty : string) (more : list string) :
  Js.split ":" (Js.trim token) = nm :: ty :: more →
  let clean := Js.replace "?" "" ty in
  GenerateCrud.parseField token
  = Ok {| GenerateCrud.name := Js.trim nm;
          GenerateCrud.type := (crudTypes clean).1.1;
          GenerateCrud.isOptional := Js.includes ty "?";
          GenerateCrud.decorators :=
            [crudDecorator (crudTypes clean).1.2 (Js.includes ty "?")] |}.
Proof.
  intros H clean. unfold GenerateCrud.parseField, crudTypes. rewrite H. simpl.
  fold clean.
  destruct (String.eqb (Js.toLowerCase clean) "string");
    [|destruct (String.eqb (Js.toLowerCase clean) "number");
      [|destruct (String.eqb (Js.toLowerCase clean) "boolean");
        [|destruct (String.eqb (Js.toLowerCase clean) "date")]]];
    simpl; destruct (Js.includes ty "?"); reflexivity.
Qed.

Lemma crud_parseField_one_segment (token : string) :
  Js.includes (Js.trim token) ":" = false →
  GenerateCrud.parseField token = Throw TypeError.
Proof.
  intros H. unfold GenerateCrud.parseField. by rewrite (split_no_sep _ _ H).
Qed.

(** ** Splitting a field token (C9) *)

(** C9 (as amended).  A field token is cut at every colon: its first segment
    gives the field name and its second segment gives the type token; what
    follows a second colon is dropped, so the token parses like the token
    made of its first two segments alone. *)
Theorem field_token_keeps_two_segments
    (token token' nm ty rest : string)
    (Htoken : Js.trim token = nm +:+ ":" +:+ ty +:+ ":" +:+ rest)
    (Htoken' : Js.trim token' = nm +:+ ":" +:+ ty)
    (Hnm : Js.includes nm ":" = false)
    (Hty : Js.includes ty ":" = false) :
  CoreGen.parseField token
  = {| CoreGen.name := Js.replace "?" "" nm;
       CoreGen.type := match ty with "" => "string" | _ => ty end;
       CoreGen.isOptional := Js.includes nm "?" |} ∧
  CoreGen.parseField token = CoreGen.parseField token' ∧
  (∃ f, GenerateCrud.parseField token = Ok f ∧
        GenerateCrud.name f = Js.trim nm ∧
        GenerateCrud.type f = (crudTypes (Js.replace "?" "" ty)).1.1) ∧
  GenerateCrud.parseField token = GenerateCrud.parseField token'.
Proof.
  destruct (split_two_colons nm ty rest Hnm Hty) as [more Hsplit].
  rewrite <- Htoken in Hsplit.
  pose proof (split_one_colon nm ty Hnm Hty) as Hsplit'.
  rewrite <- Htoken' in Hsplit'.
  rewrite (core_parseField_segments _ _ _ _ Hsplit),
    (core_parseField_segments _ _ _ _ Hsplit'),
    (crud_parseField_segments _ _ _ _ Hsplit),
    (crud_parseField_segments _ _ _ _ Hsplit').
  repeat split. eexists. repeat split.
Qed.

(** The token [a:b:c] parses like [a:b]. *)
Lemma field_token_keeps_two_segments_witness :
  CoreGen.parseField "a:b:c" = CoreGen.parseField "a:b" ∧
  GenerateCrud.parseField "a:b:c" = GenerateCrud.parseField "a:b".
Proof.
  pose proof (field_token_keeps_two_segments "a:b:c" "a:b" "a" "b" "c"
                eq_refl eq_refl eq_refl eq_refl) as (_ & H1 & _ & H2).
  exact (conj H1 H2).
Defined.

(** C9 as stated fails: the text after a second colon is not part of the
    type token, it is lost. *)
Lemma field_token_first_colon_counterexample :
  CoreGen.type (CoreGen.parseField "a:b:c") = "b" ∧
  CoreGen.type (CoreGen.parseField "a:b:c") ≠ "b:c" ∧
  (∃ f, GenerateCrud.parseField "a:b:c" = Ok f ∧
        GenerateCrud.type f = "b" ∧ GenerateCrud.type f ≠ "b:c").
Proof.
  split; [reflexivity|]. split; [discriminate|].
  eexists. split; [reflexivity|]. split; [reflexivity|discriminate].
Qed.

(** ** The optional marker (C5) *)

Lemma crudTypes_value_no_marker (ty : string) :
  Js.includes ty "?" = false → Js.includes (crudTypes ty).1.1 "?" = false.
Proof.
  intros H. unfold crudTypes.
  repeat (destruct (String.eqb _ _); [reflexivity|]). exact H.
Qed.

(** C5 (as amended).  Each parser reads the optional marker on one side only.
    On a token [name?:type] the parser of [libs/olympus/core] sets the flag
    and strips the marker from the name; on a token [name:type?] the parser
    of [generate-crud.js] sets the flag and strips the marker from the type;
    in both results neither the name nor the type holds a marker.  A marker
    on the other side is not detected: the flag stays false and the marker
    stays in the type (first parser) or in the name (second parser). *)
Theorem optional_marker_one_side
    (token nm ty : string)
    (Hnm : Js.includes nm ":" = false) (Hnm' : Js.includes nm "?" = false)
    (Hty : Js.includes ty ":" = false) (Hty' : Js.includes ty "?" = false) :
  (Js.trim token = nm +:+ "?:" +:+ ty →
     (let f := CoreGen.parseField token in
      CoreGen.isOptional f = true ∧ CoreGen.name f = nm ∧
      CoreGen.type f = match ty with "" => "string" | _ => ty end ∧
      Js.includes (CoreGen.name f) "?" = false ∧
      Js.includes (CoreGen.type f) "?" = false) ∧
     (∃ f, GenerateCrud.parseField token = Ok f ∧
           GenerateCrud.isOptional f = false ∧
           GenerateCrud.name f = Js.trim (nm +:+ "?"))) ∧
  (Js.trim token = nm +:+ ":" +:+ ty +:+ "?" →
     (∃ f, GenerateCrud.parseField token = Ok f ∧
           GenerateCrud.isOptional f = true ∧ GenerateCrud.name f = Js.trim nm ∧
           GenerateCrud.type f = (crudTypes ty).1.1 ∧
           Js.includes (GenerateCrud.name f) "?" = false ∧
           Js.includes (GenerateCrud.type f) "?" = false) ∧
     (let f := CoreGen.parseField token in
      CoreGen.isOptional f = false ∧ CoreGen.name f = nm ∧
      CoreGen.type f = ty +:+ "?")).
Proof.
  split; intros Htoken.
  - assert (Js.split ":" (Js.trim token) = [nm +:+ "?"; ty]) as Hsplit.
    { rewrite Htoken.
      change (nm +:+ "?:" +:+ ty) with (nm +:+ "?" +:+ ":" +:+ ty).
      rewrite <- sapp_assoc. apply split_one_colon; [|done].
      by rewrite includes_char_app, Hnm. }
    split.
    + rewrite (core_parseField_segments _ _ _ _ Hsplit). simpl.
      rewrite (replace_marker_end "?" nm Hnm'), includes_char_app, orb_true_r.
      repeat split; [done|]. by destruct ty.
    + rewrite (crud_parseField_segments _ _ _ _ Hsplit).
      eexists. split; [reflexivity|]. simpl. by rewrite Hty'.
  - assert (Js.split ":" (Js.trim token) = [nm; ty +:+ "?"]) as Hsplit.
    { rewrite Htoken. rewrite <- (sapp_assoc ":"), <- sapp_assoc.
      rewrite (sapp_assoc nm). apply split_one_colon; [done|].
      by rewrite includes_char_app, Hty. }
    split.
    + rewrite (crud_parseField_segments _ _ _ _ Hsplit).
      eexists. split; [reflexivity|]. simpl.
      rewrite (replace_marker_end "?" ty Hty'), includes_char_app, orb_true_r.
      repeat split.
      * by apply includes_char_trim.
      * by apply crudTypes_value_no_marker.
    + rewrite (core_parseField_segments _ _ _ _ Hsplit). simpl.
      rewrite (replace_no_match "?" "" nm Hnm'), Hnm'.
      repeat split. by destruct ty.
Qed.

(** The tokens [price?:number] and [price:number?]. *)
Lemma optional_marker_one_side_witness :
  (let f := CoreGen.parseField "price?:number" in
   CoreGen.isOptional f = true ∧ CoreGen.name f = "price") ∧
  (∃ f, GenerateCrud.parseField "price:number?" = Ok f ∧
        GenerateCrud.isOptional f = true ∧ GenerateCrud.type f = "number").
Proof.
  pose proof (optional_marker_one_side "price?:number" "price" "number"
                eq_refl eq_refl eq_refl eq_refl) as [H1 _].
  pose proof (optional_marker_one_side "price:number?" "price" "number"
                eq_refl eq_refl eq_refl eq_refl) as [_ H2].
  destruct (H1 eq_refl) as [(Ha & Hb & _) _].
  destruct (H2 eq_refl) as [(f & Hf & Hc & _ & Hd & _) _].
  split; [exact (conj Ha Hb)|].
  exists f. exact (conj Hf (conj Hc Hd)).
Defined.

(** C5 as stated fails: neither parser detects the marker on both sides.
    The parser of [libs/olympus/core] misses it on the type, the parser of
    [generate-crud.js] misses it on the name. *)
Lemma optional_marker_counterexample :
  CoreGen.parseField "price:number?"
  = {| CoreGen.name := "price"; CoreGen.type := "number?";
       CoreGen.isOptional := false |} ∧
  GenerateCrud.parseField "price?:number"
  = Ok {| GenerateCrud.name := "price?"; GenerateCrud.type := "number";
          GenerateCrud.isOptional := false;
          GenerateCrud.decorators :=
            ["@Column({ type: " +:+ Js.dq +:+ "int" +:+ Js.dq +:+ " })"] |}.
Proof. split; reflexivity. Qed.

(** ** The type mapping (C2) *)

Lemma isUpperChar_toLowerChar (c : ascii) : Js.isUpperChar (Js.toLowerChar c) = false.
Proof. destruct c as [[] [] [] [] [] [] [] []]; reflexivity. Qed.

Lemma hasUpper_toLowerCase (s : string) : hasUpper (Js.toLowerCase s) = false.
Proof.
  induction s as [|c s IH]; [reflexivity|].
  simpl. by rewrite isUpperChar_toLowerChar, IH.
Qed.

(** A lower-cased token names no member of [Object.prototype] other than
    [constructor] and [__proto__]: the other names hold an upper-case
    letter. *)
Lemma objectPrototype_lower (s : string) :
  Js.toLowerCase s ≠ "constructor" → Js.toLowerCase s ≠ "__proto__" →
  CoreGen.objectPrototype !! Js.toLowerCase s = None.
Proof.
  intros H1 H2. pose proof (hasUpper_toLowerCase s) as Hup.
  unfold CoreGen.objectPrototype. simpl.
  rewrite !lookup_insert_ne; [apply lookup_empty|..]; try done;
    intros E; rewrite <- E in Hup; discriminate.
Qed.

Lemma lookupOr_missing (table : gmap string string) (s fallback : string) :
  table !! Js.toLowerCase s = None →
  Js.toLowerCase s ≠ "constructor" → Js.toLowerCase s ≠ "__proto__" →
  CoreGen.lookupOr table (Js.toLowerCase s) fallback = CoreGen.VString fallback.
Proof.
  intros H H1 H2. unfold CoreGen.lookupOr.
  by rewrite H, objectPrototype_lower.
Qed.

(** The two tables of [libs/olympus/core] implement the mapping of the
    specification, away from the two inherited names. *)
Lemma core_type_tables (rawType : string) :
  let token := Js.toLowerCase rawType in
  token ≠ "constructor" → token ≠ "__proto__" →
  CoreGen.getTypeScriptType rawType = CoreGen.VString (specResolvedTypes token).1 ∧
  CoreGen.getTypeORMType rawType = CoreGen.VString (specResolvedTypes token).2.
Proof.
  intros token H1 H2. subst token.
  unfold CoreGen.getTypeScriptType, CoreGen.getTypeORMType, specResolvedTypes.
  remember (Js.toLowerCase rawType) as token eqn:Htoken.
  repeat match goal with
         | |- context [String.eqb token ?lit] =>
             destruct (String.eqb_spec token lit) as [->|?];
             [split; vm_compute; reflexivity|]
         end.
  subst token. split; apply lookupOr_missing; try done.
  - unfold CoreGen.typeScriptTypeMap. simpl.
    rewrite !lookup_insert_ne by done. apply lookup_empty.
  - unfold CoreGen.typeORMTypeMap. simpl.
    rewrite !lookup_insert_ne by done. apply lookup_empty.
Qed.

Lemma eqb_lower_false (s lit : string) :
  String.eqb (Js.toLowerCase s) (Js.toLowerCase lit) = false → String.eqb s lit = false.
Proof.
  intros H. destruct (String.eqb_spec s lit) as [->|]; [|reflexivity].
  by rewrite String.eqb_refl in H.
Qed.

(** The migration of [generate-crud.js] derives from the stored value type
    the column type that goes with the type token. *)
Lemma crud_migration_column_type (f : GenerateCrud.field) (clean : string) :
  GenerateCrud.type f = (crudTypes clean).1.1 →
  GenerateCrud.migrationColumnType f = (crudTypes clean).2.
Proof.
  unfold GenerateCrud.migrationColumnType, crudTypes. intros ->.
  destruct (String.eqb (Js.toLowerCase clean) "string") eqn:E1; [reflexivity|].
  destruct (String.eqb (Js.toLowerCase clean) "number") eqn:E2; [reflexivity|].
  destruct (String.eqb (Js.toLowerCase clean) "boolean") eqn:E3; [reflexivity|].
  destruct (String.eqb (Js.toLowerCase clean) "date") eqn:E4; [reflexivity|].
  simpl.
  by rewrite (eqb_lower_false clean "number" E2),
    (eqb_lower_false clean "boolean" E3), (eqb_lower_false clean "Date" E4).
Qed.

(** C2 (as amended).  In the generator of [libs/olympus/core] the value type
    and the column type of a field are functions of its raw type token alone,
    given by the mapping of the specification on the lower-cased token (with
    string and varchar for a token outside the table), for every token whose
    lower-case form is not one of the inherited names [constructor] and
    [__proto__]; its three emitters print these same two texts.  In
    [generate-crud.js] the types are functions of the token as well, by
    another mapping: only string, number, boolean and date are recognised
    (without regard to case), number has the column type int, and any other
    token is kept as it is for the value type, with a bare column decorator
    and a varchar column in the migration; the entity, the interface, the
    DTO and the migration all read the type stored on the field. *)
Theorem type_mapping_per_generator :
  (∀ rawType : string,
     let token := Js.toLowerCase rawType in
     token ≠ "constructor" → token ≠ "__proto__" →
     CoreGen.getTypeScriptType rawType = CoreGen.VString (specResolvedTypes token).1 ∧
     CoreGen.getTypeORMType rawType = CoreGen.VString (specResolvedTypes token).2) ∧
  (∀ field : CoreGen.field,
     let valueType := CoreGen.toText (CoreGen.getTypeScriptType (CoreGen.type field)) in
     let columnType := CoreGen.toText (CoreGen.getTypeORMType (CoreGen.type field)) in
     let mark := if CoreGen.isOptional field then "?" else "" in
     CoreGen.interfaceMember field
     = "  " +:+ CoreGen.name field +:+ mark +:+ ": " +:+ valueType +:+ ";" ∧
     CoreGen.entityMember field
     = "  @Column({ type: '" +:+ columnType +:+ "', nullable: "
       +:+ Js.showBool (CoreGen.isOptional field) +:+ " })" +:+ Js.newline
       +:+ "  " +:+ CoreGen.name field +:+ mark +:+ ": " +:+ valueType +:+ ";" ∧
     CoreGen.migrationColumn field
     = "          {" +:+ Js.newline
       +:+ "            name: '" +:+ CoreGen.name field +:+ "'," +:+ Js.newline
       +:+ "            type: '" +:+ columnType +:+ "'," +:+ Js.newline
       +:+ "            isNullable: " +:+ Js.showBool (CoreGen.isOptional field)
       +:+ "," +:+ Js.newline
       +:+ "          },") ∧
  (∀ (token nm ty : string) (more : list string),
     Js.split ":" (Js.trim token) = nm :: ty :: more →
     let clean := Js.replace "?" "" ty in
     ∃ f, GenerateCrud.parseField token = Ok f ∧
          GenerateCrud.type f = (crudTypes clean).1.1 ∧
          GenerateCrud.decorators f
          = [crudDecorator (crudTypes clean).1.2 (GenerateCrud.isOptional f)] ∧
          GenerateCrud.migrationColumnType f = (crudTypes clean).2).
Proof.
  split; [exact core_type_tables|]. split.
  - intros field valueType columnType mark. repeat split.
  - intros token nm ty more Hsplit clean.
    rewrite (crud_parseField_segments _ _ _ _ Hsplit). fold clean.
    eexists. split; [reflexivity|]. simpl. repeat split.
    by apply crud_migration_column_type.
Qed.

(** The tokens [UUID] and [whatever] in the generator of [libs/olympus/core],
    and the token [Number] in [generate-crud.js]. *)
Lemma type_mapping_per_generator_witness :
  (CoreGen.getTypeScriptType "UUID" = CoreGen.VString "string" ∧
   CoreGen.getTypeORMType "UUID" = CoreGen.VString "uuid") ∧
  (CoreGen.getTypeScriptType "whatever" = CoreGen.VString "string" ∧
   CoreGen.getTypeORMType "whatever" = CoreGen.VString "varchar") ∧
  (∃ f, GenerateCrud.parseField "age:Number" = Ok f ∧
        GenerateCrud.type f = "number" ∧
        GenerateCrud.migrationColumnType f = "'int'").
Proof.
  destruct type_mapping_per_generator as (Hcore & _ & Hcrud).
  split; [|split].
  - apply (Hcore "UUID"); discriminate.
  - apply (Hcore "whatever"); discriminate.
  - destruct (Hcrud "age:Number" "age" "Number" [] eq_refl) as (f & Hf & Ht & _ & Hc).
    exists f. exact (conj Hf (conj Ht Hc)).
Defined.

(** C2 as stated fails on [generate-crud.js]: the token [uuid] keeps the
    value type [uuid] and gets a varchar column, where the mapping of the
    claim has string and uuid; the token [number] gets the column type int,
    where the mapping has numeric. *)
Lemma type_mapping_counterexample :
  specResolvedTypes "uuid" = ("string", "uuid") ∧
  specResolvedTypes "number" = ("number", "numeric") ∧
  (∃ f, GenerateCrud.parseField "key:uuid" = Ok f ∧
        GenerateCrud.type f = "uuid" ∧
        GenerateCrud.decorators f = ["@Column()"] ∧
        GenerateCrud.migrationColumnType f = "'varchar'") ∧
  (∃ f, GenerateCrud.parseField "age:number" = Ok f ∧
        GenerateCrud.type f = "number" ∧
        GenerateCrud.decorators f
        = ["@Column({ type: " +:+ Js.dq +:+ "int" +:+ Js.dq +:+ " })"] ∧
        GenerateCrud.migrationColumnType f = "'int'").
Proof.
  split; [reflexivity|]. split; [reflexivity|].
  split; eexists; (split; [reflexivity|]); repeat split.
Qed.

(** ** Finding a piece of text in a generated file *)

Lemma includes_skip_char (c : ascii) (r p : string) :
  Js.includes r p = true → Js.includes (String c r) p = true.
Proof. intros H. rewrite includes_unfold, H. apply orb_true_r. Qed.

Lemma startsWith_cons (a : ascii) (p r : string) :
  Js.startsWith p r = true → Js.startsWith (String a p) (String a r) = true.
Proof. intros H. simpl. by rewrite Ascii.eqb_refl. Qed.

Lemma startsWith_app_same (v p r : string) :
  Js.startsWith p r = true → Js.startsWith (v +:+ p) (v +:+ r) = true.
Proof.
  intros H. induction v as [|c v IH]; [exact H|].
  rewrite !sapp_cons. by apply startsWith_cons.
Qed.

Lemma startsWith_nil (r : string) : Js.startsWith "" r = true.
Proof. reflexivity. Qed.

Lemma appendEach_app {A} (f : A → string) (xs : list A) (acc : string) :
  Js.appendEach f xs acc = acc +:+ Js.appendEach f xs "".
Proof.
  unfold Js.appendEach. revert acc.
  induction xs as [|x xs IH]; intros acc; simpl.
  - by rewrite sapp_nil_r.
  - rewrite (IH (acc +:+ f x)), (IH ("" +:+ f x)), sapp_nil_l. apply sapp_assoc.
Qed.

(** Proves [Js.startsWith piece text = true] when [text] starts with the
    chunks of [piece]. *)
Ltac starts :=
  lazymatch goal with
  | |- Js.startsWith EmptyString _ = true => apply startsWith_nil
  | |- Js.startsWith (String.append EmptyString ?p) _ = true =>
      change (String.append EmptyString p) with p; starts
  | |- Js.startsWith (String.append (String ?a ?l) ?p) _ = true =>
      change (String.append (String a l) p) with (String a (String.append l p));
      starts
  | |- Js.startsWith _ (String.append EmptyString ?r) = true =>
      change (String.append EmptyString r) with r; starts
  | |- Js.startsWith (String ?a ?p) (String ?a ?r) = true =>
      apply startsWith_cons; starts
  | |- Js.startsWith (String ?a ?p) (String.append (String ?b ?l) ?r) = true =>
      change (String.append (String b l) r) with (String b (String.append l r));
      starts
  | |- Js.startsWith (String.append ?v ?p) (String.append ?v ?r) = true =>
      apply startsWith_app_same; starts
  end.

(** Proves [Js.includes text piece = true], where both are chains of
    literal and opaque chunks: looks for [piece] from the left of [text],
    entering a literal chunk where it agrees with the head of [piece]. *)
Ltac skip_one :=
  lazymatch goal with
  | |- Js.includes (String.append EmptyString ?r) _ = true =>
      change (String.append EmptyString r) with r
  | |- Js.includes (String.append (String ?c ?l) ?r) _ = true =>
      change (String.append (String c l) r) with (String c (String.append l r));
      apply includes_skip_char
  | |- Js.includes (String ?c ?r) _ = true =>
      apply includes_skip_char
  | |- Js.includes (String.append ?v ?r) _ = true =>
      apply includes_app_r
  end.

Ltac is_bool_literal b :=
  lazymatch b with true => idtac | false => idtac end.

Ltac closed_char c :=
  lazymatch c with
  | Ascii ?b0 ?b1 ?b2 ?b3 ?b4 ?b5 ?b6 ?b7 =>
      is_bool_literal b0; is_bool_literal b1; is_bool_literal b2;
      is_bool_literal b3; is_bool_literal b4; is_bool_literal b5;
      is_bool_literal b6; is_bool_literal b7
  end.

Ltac closed_string s :=
  lazymatch s with
  | EmptyString => idtac
  | String ?c ?r => closed_char c; closed_string r
  end.

Ltac search :=
  lazymatch goal with
  | |- Js.includes (String.append ?L ?r) ?P = true =>
      let p0 := lazymatch P with String.append ?p _ => p | _ => P end in
      tryif (closed_string L; closed_string p0) then
        let n := eval vm_compute in (firstAgree p0 L) in
        lazymatch n with
        | O => first [ apply includes_startsWith; starts | skip_one; search ]
        | S _ =>
            let A := eval vm_compute in (takeStr n L) in
            let B := eval vm_compute in (Js.drop n L) in
            change (String.append L r) with (String.append A (String.append B r));
            apply includes_app_r;
            first [ apply includes_startsWith; starts | skip_one; search ]
        end
      else first [ apply includes_startsWith; starts
                 | apply includes_app_r; search ]
  | |- Js.includes (String ?c ?r) _ = true =>
      first [ apply includes_startsWith; starts | skip_one; search ]
  end.

(** ** The derived names (C4) *)

Lemma toSnakeCase_letter (c : ascii) (rest : string) :
  Js.isLowerChar c || Js.isUpperChar c = true →
  GenerateCrud.toSnakeCase (GenerateCrud.toPascalCase (String c rest))
  = String (Js.toLowerChar c) (Js.toLowerCase (GenerateCrud.underscoreUpper rest)).
Proof.
  unfold GenerateCrud.toSnakeCase, GenerateCrud.toPascalCase. simpl.
  rewrite sapp_nil_l. revert rest.
  destruct c as [[] [] [] [] [] [] [] []]; intros rest H; try discriminate H;
    reflexivity.
Qed.

(** Unfolds the emitters and puts every text in right-nested form. *)
Ltac open_texts :=
  unfold CoreGen.interfaceContent, CoreGen.entityContent,
    CoreGen.controllerContent, CoreGen.migrationContent,
    GenerateCrud.generateEntity, GenerateCrud.generateController,
    GenerateCrud.generateInterface, GenerateCrud.generateCreateDto,
    GenerateCrud.generateMigration, readClock;
  cbv beta iota zeta delta [fst snd GenerateCrud.content GenerateCrud.timestamp];
  repeat match goal with
    | |- context [Js.appendEach ?f ?xs (String.append ?a ?b)] =>
        rewrite (appendEach_app f xs (String.append a b))
    end;
  repeat match goal with
    | |- context [String.append (String.append ?a ?b) ?c] =>
        rewrite (sapp_assoc a b c)
    end;
  change Js.newline with (String "010"%char EmptyString).

(** C4 (as amended).  For a non-empty entity name, both generators derive the
    type name by upper-casing the first character and the instance name by
    lower-casing it, the rest unchanged.  The generator of
    [libs/olympus/core] uses the instance name followed by [s] as table name
    and route segment.  [generate-crud.js] uses the snake-case form of the
    type name instead, with no [s]: for a name that starts with a letter,
    that letter in lower case, then the rest with an underscore before every
    upper-case letter, all in lower case. *)
Theorem derived_names (c : ascii) (rest : string) :
  let entityName := String c rest in
  (CoreGen.toPascalCase entityName = String (Js.toUpperChar c) rest ∧
   CoreGen.toCamelCase entityName = String (Js.toLowerChar c) rest ∧
   GenerateCrud.toPascalCase entityName = String (Js.toUpperChar c) rest ∧
   GenerateCrud.toCamelCase entityName = String (Js.toLowerChar c) rest) ∧
  (∀ (fields : list CoreGen.field) (timestamp : Z),
     let collectionName := CoreGen.toCamelCase entityName +:+ "s" in
     Js.includes (CoreGen.entityContent entityName fields)
       ("@Entity('" +:+ collectionName +:+ "')") = true ∧
     Js.includes (CoreGen.controllerContent entityName)
       ("@Controller('" +:+ collectionName +:+ "')") = true ∧
     Js.includes (CoreGen.migrationContent entityName fields timestamp)
       ("new Table({" +:+ Js.newline +:+ "        name: '" +:+ collectionName +:+ "',")
     = true ∧
     Js.includes (CoreGen.migrationContent entityName fields timestamp)
       ("dropTable('" +:+ collectionName +:+ "')") = true) ∧
  (∀ (fields : list GenerateCrud.field) (w : world),
     let snakeCase := GenerateCrud.toSnakeCase (GenerateCrud.toPascalCase entityName) in
     Js.includes (GenerateCrud.generateEntity entityName fields)
       ("@Entity('" +:+ snakeCase +:+ "')") = true ∧
     Js.includes (GenerateCrud.generateController entityName)
       ("@Controller('" +:+ snakeCase +:+ "')") = true ∧
     Js.includes
       (GenerateCrud.content (GenerateCrud.generateMigration entityName fields w).1)
       ("new Table({" +:+ Js.newline +:+ "        name: '" +:+ snakeCase +:+ "',")
     = true ∧
     Js.includes
       (GenerateCrud.content (GenerateCrud.generateMigration entityName fields w).1)
       ("dropTable('" +:+ snakeCase +:+ "')") = true ∧
     (Js.isLowerChar c || Js.isUpperChar c = true →
      snakeCase
      = String (Js.toLowerChar c) (Js.toLowerCase (GenerateCrud.underscoreUpper rest)))).
Proof.
  intros entityName. split; [repeat split|]. split.
  - intros fields timestamp collectionName. subst collectionName entityName.
    repeat split; open_texts; search.
  - intros fields w snakeCase. subst snakeCase entityName.
    repeat split; try (open_texts; search).
    apply toSnakeCase_letter.
Qed.

(** The entity name [userProfile]. *)
Lemma derived_names_witness :
  CoreGen.toPascalCase "userProfile" = "UserProfile" ∧
  CoreGen.toCamelCase "UserProfile" = "userProfile" ∧
  GenerateCrud.toSnakeCase (GenerateCrud.toPascalCase "userProfile") = "user_profile".
Proof.
  split; [|split].
  - apply (proj1 (derived_names "u" "serProfile")).
  - apply (proj1 (derived_names "U" "serProfile")).
  - apply (proj2 (proj2 (derived_names "u" "serProfile")) [] sampleWorld).
    reflexivity.
Defined.

(** The table name of [generate-crud.js] is not the instance name plus [s]:
    C4 as stated fails on it. *)
Lemma derived_names_counterexample :
  GenerateCrud.toCamelCase "userProfile" +:+ "s" = "userProfiles" ∧
  Js.includes (GenerateCrud.generateEntity "userProfile" [])
    "@Entity('user_profile')" = true ∧
  Js.includes (GenerateCrud.generateEntity "userProfile" []) "userProfiles" = false ∧
  Js.includes (GenerateCrud.generateController "userProfile")
    "@Controller('user_profile')" = true ∧
  Js.includes (GenerateCrud.generateController "userProfile") "userProfiles" = false ∧
  Js.includes (GenerateCrud.generateEntity "user" []) "@Entity('user')" = true ∧
  Js.includes (GenerateCrud.generateEntity "user" []) "users" = false.
Proof. vm_compute. repeat split. Qed.

(** ** One timestamp per run (C7) *)


(** Puts a log built by successive writes in right-nested form. *)
Ltac flatten_log :=
  repeat match goal with
    | |- context [(?l ++ [?x]) ++ ?r] => rewrite <- (List.app_assoc l [x] r)
    end;
  cbn [app].

(** The field specification that the generator of [libs/olympus/core] uses
    for given arguments, and the writes of a run that completes. *)
Lemma core_run_writes (args : list string) (w : world) :
  (CoreGen.main args w).1 = Completed →
  let w' := (CoreGen.main args w).2 in
  let fieldsString :=
    match args !! 1%nat with
    | Some (String c r) => String c r
    | _ => CoreGen.defaultFields
    end in
  let fields := CoreGen.parseFields fieldsString in
  let timestamp := epochMs (clock w (ticks w)) in
  ∃ entityName indexContent,
    args !! 0%nat = Some entityName ∧ entityName ≠ "" ∧
    ticks w' = S (ticks w) ∧
    written w'
    = written w ++
      [ (path_join [CoreGen.directory; entityName +:+ ".interface.ts"],
         CoreGen.interfaceContent entityName fields);
        (path_join [CoreGen.directory; entityName +:+ ".service.ts"],
         CoreGen.serviceContent entityName);
        (path_join [CoreGen.directory; entityName +:+ ".entity.ts"],
         CoreGen.entityContent entityName fields);
        (path_join [CoreGen.directory; entityName +:+ ".controller.ts"],
         CoreGen.controllerContent entityName);
        (path_join [CoreGen.directory; "migrations";
                    "Create" +:+ CoreGen.toPascalCase entityName +:+ "Table"
                    +:+ Js.showZ timestamp +:+ ".ts"],
         CoreGen.migrationContent entityName fields timestamp);
        (CoreGen.indexPath, CoreGen.mergeExports entityName indexContent) ].
Proof.
  unfold CoreGen.main.
  destruct (args !! 0%nat) as [[|c rest]|] eqn:Hargs; try discriminate.
  intros _. cbn [fst snd readClock writeFileSync written ticks clock].
  eexists (String c rest), _. split; [reflexivity|]. split; [discriminate|].
  split; [reflexivity|].
  flatten_log. reflexivity.
Qed.



Lemma stripDateMarks_app (a b : string) :
  GenerateCrud.stripDateMarks (a +:+ b)
  = GenerateCrud.stripDateMarks a +:+ GenerateCrud.stripDateMarks b.
Proof.
  induction a as [|c a IH]; [done|]. rewrite sapp_cons. simpl.
  destruct (_ || _); [done|]. by rewrite sapp_cons, IH.
Qed.

Lemma stripDateMarks_clean (s : string) :
  noDateMark s = true → GenerateCrud.stripDateMarks s = s ∧ Js.includes s "." = false.
Proof.
  induction s as [|c s IH]; [done|]. intros H. simpl in H.
  apply andb_true_iff in H as [Hc Hs]. destruct (IH Hs) as [Hstrip Hdot].
  unfold isDateMark in Hc. apply negb_true_iff, orb_false_iff in Hc as [Hc Hc'].
  split.
  - simpl. by rewrite Hc, Hstrip.
  - by rewrite includes_char_cons, eqb_sym, Hc', Hdot.
Qed.

Lemma noDateMark_app (a b : string) :
  noDateMark (a +:+ b) = noDateMark a && noDateMark b.
Proof.
  induction a as [|c a IH]; [done|]. rewrite sapp_cons. simpl.
  by rewrite IH, andb_assoc.
Qed.




(** ** Timestamp members (C10) *)

(** C10.  In the generator of [libs/olympus/core] (the one the claim cites,
    [src/unnamed/part_000]) the generated interface file is the entity
    interface, whose members are [id], one member per parsed field (its name,
    the optional marker, its value type), then [createdAt] and [updatedAt],
    followed by the create and update DTO interfaces, whose members are the
    members of the parsed fields and nothing else; the entity class and the
    migration table declare one column per parsed field (its name, its column
    type, whether it is nullable) and, right after these, [createdAt] and
    [updatedAt]. *)
Theorem timestamp_members_after_fields
    (entityName : string) (fields : list CoreGen.field) (timestamp : Z) :
  let nl := Js.newline in
  let typeName := CoreGen.toPascalCase entityName in
  let valueType (f : CoreGen.field) :=
    CoreGen.toText (CoreGen.getTypeScriptType (CoreGen.type f)) in
  let columnType (f : CoreGen.field) :=
    CoreGen.toText (CoreGen.getTypeORMType (CoreGen.type f)) in
  let marker (f : CoreGen.field) := if CoreGen.isOptional f then "?" else "" in
  let member (f : CoreGen.field) :=
    "  " +:+ CoreGen.name f +:+ marker f +:+ ": " +:+ valueType f +:+ ";" in
  let members := Js.join nl (map member fields) in
  let entityInterface :=
    "export interface " +:+ typeName +:+ " {" +:+ nl
    +:+ "  id: string;" +:+ nl
    +:+ members +:+ nl
    +:+ "  createdAt: Date;" +:+ nl
    +:+ "  updatedAt: Date;" +:+ nl
    +:+ "}" +:+ nl in
  let dtoInterface (kind : string) :=
    "export interface " +:+ kind +:+ typeName +:+ "Dto {" +:+ nl
    +:+ members +:+ nl
    +:+ "}" +:+ nl in
  let column (f : CoreGen.field) :=
    "  @Column({ type: '" +:+ columnType f +:+ "', nullable: "
    +:+ (if CoreGen.isOptional f then "true" else "false") +:+ " })" +:+ nl
    +:+ member f in
  let tableColumn (f : CoreGen.field) :=
    "          {" +:+ nl
    +:+ "            name: '" +:+ CoreGen.name f +:+ "'," +:+ nl
    +:+ "            type: '" +:+ columnType f +:+ "'," +:+ nl
    +:+ "            isNullable: "
    +:+ (if CoreGen.isOptional f then "true" else "false") +:+ "," +:+ nl
    +:+ "          }," in
  CoreGen.interfaceContent entityName fields
  = entityInterface +:+ nl +:+ dtoInterface "Create" +:+ nl +:+ dtoInterface "Update" ∧
  Js.includes (CoreGen.entityContent entityName fields)
    ("  id: string;" +:+ nl +:+ nl
     +:+ Js.join nl (map column fields) +:+ nl +:+ nl
     +:+ "  @CreateDateColumn()" +:+ nl
     +:+ "  createdAt: Date;" +:+ nl +:+ nl
     +:+ "  @UpdateDateColumn()" +:+ nl
     +:+ "  updatedAt: Date;" +:+ nl
     +:+ "}") = true ∧
  Js.includes (CoreGen.migrationContent entityName fields timestamp)
    ("        columns: [" +:+ nl
     +:+ "          {" +:+ nl
     +:+ "            name: 'id'," +:+ nl
     +:+ "            type: 'uuid'," +:+ nl
     +:+ "            isPrimary: true," +:+ nl
     +:+ "            generationStrategy: 'uuid'," +:+ nl
     +:+ "            default: 'uuid_generate_v4()'," +:+ nl
     +:+ "          }," +:+ nl
     +:+ Js.join nl (map tableColumn fields) +:+ nl
     +:+ "          {" +:+ nl
     +:+ "            name: 'createdAt'," +:+ nl
     +:+ "            type: 'timestamp'," +:+ nl
     +:+ "            default: 'now()'," +:+ nl
     +:+ "          }," +:+ nl
     +:+ "          {" +:+ nl
     +:+ "            name: 'updatedAt'," +:+ nl
     +:+ "            type: 'timestamp'," +:+ nl
     +:+ "            default: 'now()'," +:+ nl
     +:+ "          }," +:+ nl
     +:+ "        ],") = true.
Proof.
  intros nl typeName valueType columnType marker member members entityInterface
    dtoInterface column tableColumn.
  assert (map CoreGen.interfaceMember fields = map member fields) as Hmember.
  { apply map_ext. intros f. reflexivity. }
  assert (map CoreGen.entityMember fields = map column fields) as Hcolumn.
  { apply map_ext. intros f. unfold CoreGen.entityMember, column, member, marker, valueType, columnType,
      Js.showBool.
    subst nl. change Js.newline with (String "010"%char EmptyString).
    destruct (CoreGen.isOptional f);
      repeat match goal with
        | |- context [String.append (String.append ?a ?b) ?c] =>
            rewrite (sapp_assoc a b c)
        end; rewrite ?sapp_cons, ?sapp_nil_l; reflexivity. }
  assert (map CoreGen.migrationColumn fields = map tableColumn fields) as Htable.
  { apply map_ext. intros f. unfold CoreGen.migrationColumn, tableColumn, columnType, Js.showBool.
    subst nl. change Js.newline with (String "010"%char EmptyString).
    destruct (CoreGen.isOptional f);
      repeat match goal with
        | |- context [String.append (String.append ?a ?b) ?c] =>
            rewrite (sapp_assoc a b c)
        end; rewrite ?sapp_cons, ?sapp_nil_l; reflexivity. }
  subst members entityInterface dtoInterface. cbv beta.
  rewrite <- Hmember, <- Hcolumn, <- Htable.
  subst nl typeName.
  split; [|split].
  - unfold CoreGen.interfaceContent. cbv beta zeta.
    repeat match goal with
      | |- context [String.append (String.append ?a ?b) ?c] =>
          rewrite (sapp_assoc a b c)
      end.
    reflexivity.
  - open_texts. search.
  - open_texts. search.
Qed.

(** [generate-crud.js], for comparison, declares no timestamp member in any
    of its artifacts. *)
Lemma crud_declares_no_timestamps :
  ∃ fields,
    GenerateCrud.parseFields "name:string,price:number?" = Ok fields ∧
    forallb (λ text, negb (Js.includes text "createdAt")
                     && negb (Js.includes text "updatedAt"))
      [ GenerateCrud.generateEntity "product" fields;
        GenerateCrud.generateInterface "product" fields;
        GenerateCrud.generateCreateDto "product" fields;
        GenerateCrud.generateUpdateDto "product";
        GenerateCrud.content
          (GenerateCrud.generateMigration "product" fields sampleWorld).1 ]
    = true.
Proof. eexists. split; [reflexivity|]. vm_compute. reflexivity. Qed.

(** ** Tokens without a colon (C6) *)

Lemma mapTokens_throws (tokens : list string) (token : string) :
  token ∈ tokens → GenerateCrud.parseField token = Throw TypeError →
  GenerateCrud.mapTokens tokens = Throw TypeError.
Proof.
  induction tokens as [|t tokens IH]; intros Hin Hthrow.
  - by apply elem_of_nil in Hin.
  - simpl. apply elem_of_cons in Hin as [<-|Hin].
    + by rewrite Hthrow.
    + destruct (GenerateCrud.parseField t) as [f|[]]; [|reflexivity].
      by rewrite (IH Hin Hthrow).
Qed.

(** C6 (as amended).  Neither generator has a field-specification error of
    its own.  In [generate-crud.js] a specification with a token that holds
    no colon, the empty specification included, stops the run with an
    uncaught [TypeError] before any file is written.  The generator of
    [libs/olympus/core] accepts a token without a colon as a field of type
    [string] and replaces an empty specification by its default,
    [name:string,description:string]; whatever the specification is, a run
    of it that completes has written its six files, the first of them the
    interfaces of the fields parsed. *)
Theorem token_without_colon :
  (∀ (entityName fieldsString : string) (more : list string) (w : world) (token : string),
     token ∈ Js.split "," fieldsString →
     Js.includes (Js.trim token) ":" = false →
     GenerateCrud.main (entityName :: fieldsString :: more) w = (Thrown TypeError, w)) ∧
  (∀ (entityName : string) (more : list string) (w : world),
     GenerateCrud.main (entityName :: "" :: more) w = (Thrown TypeError, w)) ∧
  (∀ token : string,
     Js.includes (Js.trim token) ":" = false →
     CoreGen.parseField token
     = {| CoreGen.name := Js.replace "?" "" (Js.trim token);
          CoreGen.type := "string";
          CoreGen.isOptional := Js.includes (Js.trim token) "?" |}) ∧
  (∀ (entityName : string) (w : world),
     CoreGen.main [entityName; ""] w = CoreGen.main [entityName; CoreGen.defaultFields] w) ∧
  (∀ (entityName fieldsString : string) (w : world),
     let run := CoreGen.main [entityName; fieldsString] w in
     let specification :=
       if String.eqb fieldsString "" then CoreGen.defaultFields else fieldsString in
     run.1 = Completed →
     ∃ new,
       written run.2 = written w ++ new ∧ length new = 6%nat ∧
       new !! 0%nat
       = Some (path_join [CoreGen.directory; entityName +:+ ".interface.ts"],
               CoreGen.interfaceContent entityName (CoreGen.parseFields specification))).
Proof.
  assert (∀ (entityName fieldsString : string) (more : list string) (w : world)
            (token : string),
            token ∈ Js.split "," fieldsString →
            Js.includes (Js.trim token) ":" = false →
            GenerateCrud.main (entityName :: fieldsString :: more) w
            = (Thrown TypeError, w)) as Hthrow.
  { intros entityName fieldsString more w token Hin Hcolon.
    unfold GenerateCrud.main, GenerateCrud.parseFields.
    by rewrite (mapTokens_throws _ token Hin (crud_parseField_one_segment _ Hcolon)). }
  split; [exact Hthrow|]. split; [|split; [|split]].
  - intros entityName more w. apply (Hthrow _ _ _ _ "").
    + apply list_elem_of_here.
    + reflexivity.
  - exact core_parseField_one_segment.
  - reflexivity.
  - intros entityName fieldsString w run specification Hdone. subst run specification.
    destruct (core_run_writes _ w Hdone) as (e & ic & [= <-] & _ & _ & ->).
    eexists. split; [reflexivity|]. split; [reflexivity|].
    cbn [lookup list_lookup]. do 3 f_equal.
    by destruct fieldsString.
Qed.

(** The specification [name,email:string] in both generators. *)
Lemma token_without_colon_witness :
  GenerateCrud.main ["user"; "name,email:string"] sampleWorld
  = (Thrown TypeError, sampleWorld) ∧
  CoreGen.parseField "name"
  = {| CoreGen.name := "name"; CoreGen.type := "string";
       CoreGen.isOptional := false |} ∧
  length (written (CoreGen.main ["user"; "name,email:string"] sampleWorld).2) = 6%nat.
Proof.
  destruct token_without_colon as (Hcrud & _ & Hcore & _ & Hrun).
  split; [|split].
  - apply (Hcrud "user" "name,email:string" [] sampleWorld "name").
    + apply list_elem_of_here.
    + reflexivity.
  - apply (Hcore "name"). reflexivity.
  - destruct (Hrun "user" "name,email:string" sampleWorld eq_refl)
      as (new & Hlog & Hlength & _).
    rewrite Hlog. exact Hlength.
Defined.

(** C6 as stated fails: on the specification [name] and on the empty
    specification the generator of [libs/olympus/core] reports no error, it
    completes and writes six files. *)
Lemma token_without_colon_counterexample :
  let run := CoreGen.main ["user"; "name"] sampleWorld in
  let run' := CoreGen.main ["user"; ""] sampleWorld in
  (run.1 = Completed ∧ length (written run.2) = 6%nat) ∧
  (run'.1 = Completed ∧ length (written run'.2) = 6%nat).
Proof. vm_compute. repeat split. Qed.

(** ** The filter on field names that hold [id] (C8, C3) *)

(** C8, evaluated.  In [generate-crud.js] the create DTO and the migration
    skip every field whose name holds [id] as a substring.  On the
    specification [id:number,width:number,parentId:string] the field [id] is
    skipped, and so is [width], whose name is not the reserved name; the
    entity and the interface keep [width].  (The field [parentId] is kept:
    the test is case-sensitive and the name holds [Id], not [id].) *)
Lemma reserved_name_filter_at_width :
  ∃ fields,
    GenerateCrud.parseFields "id:number,width:number,parentId:string" = Ok fields ∧
    map GenerateCrud.name fields = ["id"; "width"; "parentId"] ∧
    let dto := GenerateCrud.generateCreateDto "box" fields in
    let migration :=
      GenerateCrud.content (GenerateCrud.generateMigration "box" fields sampleWorld).1 in
    (Js.includes dto "  id: number;" = false ∧
     Js.includes dto "width" = false ∧
     Js.includes dto "  parentId: string;" = true) ∧
    (Js.includes migration "name: 'width'" = false ∧
     Js.includes migration "name: 'parentId'" = true) ∧
    Js.includes (GenerateCrud.generateEntity "box" fields) "  width: number;" = true ∧
    Js.includes (GenerateCrud.generateInterface "box" fields) "  width: number;" = true.
Proof. eexists. split; [reflexivity|]. vm_compute. repeat split. Qed.

(** C3, evaluated.  In [generate-crud.js] the optional field of the
    specification [width:number?] is nullable in the entity and in the
    interface, and is missing from the migration and from the create DTO,
    which skip it for the [id] in its name. *)
Lemma optional_field_at_width :
  ∃ field,
    GenerateCrud.parseFields "width:number?" = Ok [field] ∧
    GenerateCrud.name field = "width" ∧
    GenerateCrud.isOptional field = true ∧
    let entity := GenerateCrud.generateEntity "box" [field] in
    let migration :=
      GenerateCrud.content (GenerateCrud.generateMigration "box" [field] sampleWorld).1 in
    (Js.includes entity "nullable: true" = true ∧
     Js.includes entity "  width: number | null;" = true) ∧
    Js.includes (GenerateCrud.generateInterface "box" [field])
      "  width: number | null;" = true ∧
    (Js.includes migration "width" = false ∧
     Js.includes migration "isNullable" = false ∧
     migration = GenerateCrud.content (GenerateCrud.generateMigration "box" [] sampleWorld).1) ∧
    Js.includes (GenerateCrud.generateCreateDto "box" [field]) "width" = false.
Proof. eexists. split; [reflexivity|]. vm_compute. repeat split. Qed.

(** Away from that filter the optional flag does reach every artifact.  In
    the generator of [libs/olympus/core] every member and column of a field
    carries its flag. *)
Lemma core_optional_propagation (field : CoreGen.field) :
  let valueType := CoreGen.toText (CoreGen.getTypeScriptType (CoreGen.type field)) in
  (CoreGen.isOptional field = true →
   Js.includes (CoreGen.interfaceMember field)
     (CoreGen.name field +:+ "?: " +:+ valueType +:+ ";") = true ∧
   Js.includes (CoreGen.entityMember field) "nullable: true" = true ∧
   Js.includes (CoreGen.entityMember field)
     (CoreGen.name field +:+ "?: " +:+ valueType +:+ ";") = true ∧
   Js.includes (CoreGen.migrationColumn field) "isNullable: true" = true) ∧
  (CoreGen.isOptional field = false →
   CoreGen.interfaceMember field
   = "  " +:+ CoreGen.name field +:+ ": " +:+ valueType +:+ ";" ∧
   Js.includes (CoreGen.entityMember field) "nullable: false" = true ∧
   Js.includes (CoreGen.entityMember field)
     (Js.newline +:+ "  " +:+ CoreGen.name field +:+ ": " +:+ valueType +:+ ";") = true ∧
   Js.includes (CoreGen.migrationColumn field) "isNullable: false" = true).
Proof.
  intros valueType. subst valueType.
  unfold CoreGen.interfaceMember, CoreGen.entityMember, CoreGen.migrationColumn.
  split; intros ->; unfold Js.showBool;
    change Js.newline with (String "010"%char EmptyString);
    repeat split; search.
Qed.

(** In [generate-crud.js] a field whose name does not hold [id] carries its
    flag in the entity, the interface, the create DTO and the migration. *)
Lemma crud_optional_propagation (field : GenerateCrud.field) :
  Js.includes (GenerateCrud.name field) "id" = false →
  let member := GenerateCrud.name field +:+ ": " +:+ GenerateCrud.type field in
  (GenerateCrud.isOptional field = true →
   Js.includes (GenerateCrud.entityMember field) (member +:+ " | null;") = true ∧
   Js.includes (GenerateCrud.interfaceMember field) (member +:+ " | null;") = true ∧
   GenerateCrud.createDtoMember field
   = "  " +:+ GenerateCrud.name field +:+ "?: " +:+ GenerateCrud.type field
     +:+ ";" +:+ Js.newline ∧
   Js.includes (GenerateCrud.migrationColumn field) "isNullable: true" = true) ∧
  (GenerateCrud.isOptional field = false →
   Js.includes (GenerateCrud.entityMember field) (member +:+ ";") = true ∧
   Js.includes (GenerateCrud.interfaceMember field) (member +:+ ";") = true ∧
   Js.includes (GenerateCrud.createDtoMember field)
     (Js.newline +:+ "  " +:+ member +:+ ";") = true ∧
   Js.includes (GenerateCrud.migrationColumn field) "isNullable: false" = true).
Proof.
  intros Hid member. subst member.
  unfold GenerateCrud.entityMember, GenerateCrud.interfaceMember,
    GenerateCrud.createDtoMember, GenerateCrud.migrationColumn.
  rewrite Hid. cbn [negb].
  split; intros ->; change Js.newline with (String "010"%char EmptyString);
    repeat match goal with
      | |- context [String.append (String.append ?a ?b) ?c] =>
          rewrite (sapp_assoc a b c)
      end;
    repeat split; try reflexivity; search.
Qed.

(** ** The index file after a run *)

Lemma core_generated_path_not_index (segments : list string) :
  path_join (CoreGen.directory :: segments) ≠ CoreGen.indexPath.
Proof.
  intros H. apply (f_equal (Js.drop 22)) in H.
  destruct segments as [|s segments]; vm_compute in H; discriminate H.
Qed.

(** After a run of the generator of [libs/olympus/core] that completes, the
    index holds the merge of the export lines into what it held before. *)
Lemma core_index_after_run (args : list string) (w : world) :
  (CoreGen.main args w).1 = Completed →
  ∃ entityName,
    args !! 0%nat = Some entityName ∧
    files (CoreGen.main args w).2 !! CoreGen.indexPath
    = Some (CoreGen.mergeExports entityName
              (default "" (files w !! CoreGen.indexPath))).
Proof.
  unfold CoreGen.main.
  destruct (args !! 0%nat) as [[|c rest]|] eqn:Hargs; try discriminate.
  intros _. exists (String c rest). split; [reflexivity|].
  cbn [fst snd readClock writeFileSync files].
  rewrite lookup_insert_eq. do 2 f_equal.
  unfold existsSync, readFileSync. cbn [files writeFileSync].
  rewrite !lookup_insert_ne by apply core_generated_path_not_index.
  destruct (files w !! CoreGen.indexPath); reflexivity.
Qed.

Lemma updateIndex_lookup (placeholder line indexPath : string) (w : world) :
  Js.includes "" line = false →
  let w' := GenerateCrud.updateIndex placeholder line indexPath w in
  files w' !! indexPath
  = Some (GenerateCrud.mergeExport placeholder line (default "" (files w !! indexPath))) ∧
  ∀ p, p ≠ indexPath → files w' !! p = files w !! p.
Proof.
  intros Hline. unfold GenerateCrud.updateIndex, existsSync, readFileSync.
  destruct (files w !! indexPath) as [text|] eqn:Hfile;
    cbn [default from_option id].
  - rewrite bool_decide_eq_true_2 by eauto.
    destruct (Js.includes text line) eqn:Hinc; cbn [negb]; cbv zeta.
    + unfold GenerateCrud.mergeExport. rewrite Hinc. cbn [negb].
      by split.
    + cbn [files writeFileSync]. rewrite lookup_insert_eq.
      split; [reflexivity|]. intros p Hp. by rewrite lookup_insert_ne.
  - rewrite bool_decide_eq_false_2 by (intros [? ?]; discriminate).
    rewrite Hline. cbn [negb files writeFileSync]. rewrite lookup_insert_eq.
    split; [reflexivity|]. intros p Hp. by rewrite lookup_insert_ne.
Qed.

Lemma length_sapp (a b : string) :
  String.length (a +:+ b) = (String.length a + String.length b)%nat.
Proof. induction a as [|c a IH]; [reflexivity|]. rewrite sapp_cons. simpl. by rewrite IH. Qed.

Lemma sapp_inj_r (a b suffix : string) : a +:+ suffix = b +:+ suffix → a = b.
Proof.
  revert b. induction a as [|c a IH]; intros [|d b] H.
  - reflexivity.
  - apply (f_equal String.length) in H.
    rewrite sapp_nil_l, sapp_cons in H. simpl in H. rewrite length_sapp in H. lia.
  - apply (f_equal String.length) in H.
    rewrite sapp_nil_l, sapp_cons in H. simpl in H. rewrite length_sapp in H. lia.
  - rewrite !sapp_cons in H. injection H as -> H. f_equal. by apply IH.
Qed.

(** Which generated files of [generate-crud.js] can be one of its index
    files: only the interface of an entity named [index]. *)
Lemma crud_app_path_not_index (entityName : string) (segments : list string)
    (indexPath : string) :
  indexPath = GenerateCrud.modelsIndexPath ∨ indexPath = GenerateCrud.servicesIndexPath →
  path_join (GenerateCrud.targetPath entityName :: segments) ≠ indexPath ∧
  path_join (GenerateCrud.migrationPath :: segments) ≠ indexPath.
Proof.
  intros Hindex. split; intros H; apply (f_equal (takeStr 1)) in H;
    destruct Hindex as [-> | ->], segments as [|s segments];
    vm_compute in H; discriminate H.
Qed.

Lemma crud_service_path_not_index (entityName indexPath : string) :
  indexPath = GenerateCrud.modelsIndexPath ∨ indexPath = GenerateCrud.servicesIndexPath →
  path_join [GenerateCrud.servicePath; entityName +:+ ".service.ts"] ≠ indexPath.
Proof.
  intros [-> | ->] H.
  - apply (f_equal (Js.drop 26)) in H. apply (f_equal (takeStr 1)) in H.
    vm_compute in H. discriminate H.
  - change (path_join [GenerateCrud.servicePath; entityName +:+ ".service.ts"])
      with ("libs/olympus/core/src/lib/services/" +:+ entityName +:+ ".service.ts")
      in H.
    change GenerateCrud.servicesIndexPath
      with ("libs/olympus/core/src/lib/services/" +:+ "index.ts") in H.
    apply String.app_inj in H. apply (f_equal String.length) in H.
    rewrite length_sapp in H. simpl in H. lia.
Qed.

Lemma crud_interface_path_index (entityName : string) :
  path_join [GenerateCrud.interfacePath; entityName +:+ ".ts"]
  ≠ GenerateCrud.servicesIndexPath ∧
  (path_join [GenerateCrud.interfacePath; entityName +:+ ".ts"]
   = GenerateCrud.modelsIndexPath ↔ entityName = "index").
Proof.
  split; [|split].
  - intros H. apply (f_equal (Js.drop 26)) in H. apply (f_equal (takeStr 1)) in H.
    vm_compute in H. discriminate H.
  - intros H.
    change (path_join [GenerateCrud.interfacePath; entityName +:+ ".ts"])
      with ("libs/olympus/core/src/lib/models/" +:+ entityName +:+ ".ts") in H.
    change GenerateCrud.modelsIndexPath
      with ("libs/olympus/core/src/lib/models/" +:+ "index" +:+ ".ts") in H.
    apply String.app_inj in H. by apply sapp_inj_r in H.
  - intros ->. reflexivity.
Qed.

Lemma crud_index_paths_differ :
  GenerateCrud.modelsIndexPath ≠ GenerateCrud.servicesIndexPath.
Proof. discriminate. Qed.

(** After a run of [generate-crud.js] that completes, each index holds the
    merge of its export line into what it held when it was read: its text
    before the run, except that the models index of an entity named [index]
    is the interface file that the run has just written. *)
Lemma crud_indexes_after_run (args : list string) (w : world) :
  (GenerateCrud.main args w).1 = Completed →
  let w' := (GenerateCrud.main args w).2 in
  ∃ entityName fieldsString more fields,
    args = entityName :: fieldsString :: more ∧
    GenerateCrud.parseFields fieldsString = Ok fields ∧
    files w' !! GenerateCrud.modelsIndexPath
    = Some (GenerateCrud.mergeExport GenerateCrud.modelsPlaceholder
              (GenerateCrud.modelsExportLine entityName)
              (if decide (entityName = "index")
               then GenerateCrud.generateInterface entityName fields
               else default "" (files w !! GenerateCrud.modelsIndexPath))) ∧
    files w' !! GenerateCrud.servicesIndexPath
    = Some (GenerateCrud.mergeExport GenerateCrud.servicesPlaceholder
              (GenerateCrud.serviceExportLine entityName)
              (default "" (files w !! GenerateCrud.servicesIndexPath))).
Proof.
  unfold GenerateCrud.main.
  destruct args as [|entityName [|fieldsString more]]; try discriminate.
  destruct (GenerateCrud.parseFields fieldsString) as [fields|] eqn:Hparse;
    try discriminate.
  intros _. exists entityName, fieldsString, more, fields.
  split; [reflexivity|]. split; [exact Hparse|].
  unfold GenerateCrud.generateMigration, readClock.
  cbv beta iota zeta delta [fst snd GenerateCrud.content GenerateCrud.timestamp].
  match goal with
  | |- context [GenerateCrud.updateIndex ?p2 ?l2 ?i2 (GenerateCrud.updateIndex ?p1 ?l1 ?i1 ?w9)] =>
      destruct (updateIndex_lookup p1 l1 i1 w9 eq_refl) as [M1 O1];
      destruct (updateIndex_lookup p2 l2 i2 (GenerateCrud.updateIndex p1 l1 i1 w9) eq_refl)
        as [M2 O2];
      cbv zeta in M1, O1, M2, O2
  end.
  split.
  - rewrite (O2 _ crud_index_paths_differ), M1. do 2 f_equal.
    cbn [files writeFileSync].
    rewrite lookup_insert_ne
      by (apply crud_service_path_not_index; by left).
    destruct (decide (entityName = "index")) as [->|Hname].
    + by rewrite lookup_insert_eq.
    + rewrite lookup_insert_ne
        by (intros E; by apply crud_interface_path_index in E).
      rewrite lookup_insert_ne
        by (apply (crud_app_path_not_index entityName); by left).
      by rewrite !lookup_insert_ne
        by (apply (crud_app_path_not_index entityName); by left).
  - rewrite M2, (O1 _ (not_eq_sym crud_index_paths_differ)). do 2 f_equal.
    cbn [files writeFileSync].
    rewrite lookup_insert_ne
      by (apply crud_service_path_not_index; by right).
    rewrite lookup_insert_ne by apply crud_interface_path_index.
    rewrite lookup_insert_ne
      by (apply (crud_app_path_not_index entityName); by right).
    by rewrite !lookup_insert_ne
      by (apply (crud_app_path_not_index entityName); by right).
Qed.

(** The outcome of a run depends on the arguments alone. *)
Lemma core_outcome_of_args (args : list string) (w w' : world) :
  (CoreGen.main args w).1 = (CoreGen.main args w').1.
Proof.
  unfold CoreGen.main. by destruct (args !! 0%nat) as [[|c rest]|].
Qed.

Lemma crud_outcome_of_args (args : list string) (w w' : world) :
  (GenerateCrud.main args w).1 = (GenerateCrud.main args w').1.
Proof.
  unfold GenerateCrud.main.
  destruct args as [|entityName [|fieldsString more]]; try reflexivity.
  by destruct (GenerateCrud.parseFields fieldsString).
Qed.

(** A second run with the same arguments leaves the index of
    [libs/olympus/core] as the first run left it. *)
Lemma core_second_run_index (args : list string) (w : world) :
  (CoreGen.main args w).1 = Completed →
  let w1 := (CoreGen.main args w).2 in
  let w2 := (CoreGen.main args w1).2 in
  (CoreGen.main args w1).1 = Completed ∧
  files w2 !! CoreGen.indexPath = files w1 !! CoreGen.indexPath.
Proof.
  intros Hrun w1 w2. subst w2.
  assert ((CoreGen.main args w1).1 = Completed) as Hrun'
    by (by rewrite (core_outcome_of_args args w1 w)).
  split; [exact Hrun'|].
  destruct (core_index_after_run args w Hrun) as (e & He & H1).
  destruct (core_index_after_run args w1 Hrun') as (e' & He' & H2).
  rewrite He in He'. injection He' as <-.
  fold w1 in H1. rewrite H2, H1. cbn [default from_option id].
  by rewrite core_mergeExports_idempotent.
Qed.

(** A second run of [generate-crud.js] with the same arguments leaves both
    index files as the first run left them. *)
Lemma crud_second_run_indexes (args : list string) (w : world) :
  (GenerateCrud.main args w).1 = Completed →
  let w1 := (GenerateCrud.main args w).2 in
  let w2 := (GenerateCrud.main args w1).2 in
  (GenerateCrud.main args w1).1 = Completed ∧
  files w2 !! GenerateCrud.modelsIndexPath = files w1 !! GenerateCrud.modelsIndexPath ∧
  files w2 !! GenerateCrud.servicesIndexPath
  = files w1 !! GenerateCrud.servicesIndexPath.
Proof.
  intros Hrun w1 w2. subst w2.
  assert ((GenerateCrud.main args w1).1 = Completed) as Hrun'
    by (by rewrite (crud_outcome_of_args args w1 w)).
  split; [exact Hrun'|].
  destruct (crud_indexes_after_run args w Hrun)
    as (e & spec & more & fields & Hargs & Hparse & M1 & S1).
  destruct (crud_indexes_after_run args w1 Hrun')
    as (e' & spec' & more' & fields' & Hargs' & Hparse' & M2 & S2).
  cbv zeta in M1, S1, M2, S2. fold w1 in M1, S1.
  rewrite Hargs in Hargs'. injection Hargs' as <- <- <-.
  rewrite Hparse in Hparse'. injection Hparse' as <-.
  split.
  - rewrite M2, M1. destruct (decide (e = "index")); [reflexivity|].
    cbn [default from_option id]. by rewrite crud_mergeExport_idempotent.
  - rewrite S2, S1. cbn [default from_option id].
    by rewrite crud_mergeExport_idempotent.
Qed.

(** ** Idempotent merge of the export lines (C1) *)

(** C1 (as amended).  Both generators skip an export line that occurs in the
    text of the index as a substring.  A missing line is added as follows:
    the generator of [libs/olympus/core] appends a line separator and then the
    line to the unchanged text; [generate-crud.js] appends the line and then
    a line separator to the unchanged text, except that a text that is blank
    or is just the placeholder comment is replaced by the line and a
    separator.  In both, merging the same lines a second time changes
    nothing, so the set of distinct lines is the same after two merges as
    after one; and a second run of a generator with the same arguments leaves
    every index file as the first run left it. *)
Theorem manifest_merge_idempotent :
  (∀ content line : string,
     (Js.includes content line = true → CoreGen.addExport content line = content) ∧
     (Js.includes content line = false →
      CoreGen.addExport content line = content +:+ Js.newline +:+ line)) ∧
  (∀ placeholder line content : string,
     (Js.includes content line = true →
      GenerateCrud.mergeExport placeholder line content = content) ∧
     (Js.includes content line = false →
      Js.trim content ≠ "" → Js.trim content ≠ placeholder →
      GenerateCrud.mergeExport placeholder line content
      = content +:+ line +:+ Js.newline) ∧
     (Js.includes content line = false →
      Js.trim content = "" ∨ Js.trim content = placeholder →
      GenerateCrud.mergeExport placeholder line content = line +:+ Js.newline)) ∧
  (∀ entityName content : string,
     let once := CoreGen.mergeExports entityName content in
     CoreGen.mergeExports entityName once = once ∧
     lineSet (CoreGen.mergeExports entityName once) = lineSet once) ∧
  (∀ placeholder line content : string,
     let once := GenerateCrud.mergeExport placeholder line content in
     GenerateCrud.mergeExport placeholder line once = once ∧
     lineSet (GenerateCrud.mergeExport placeholder line once) = lineSet once) ∧
  (∀ (args : list string) (w : world),
     (CoreGen.main args w).1 = Completed →
     let w1 := (CoreGen.main args w).2 in
     let w2 := (CoreGen.main args w1).2 in
     (CoreGen.main args w1).1 = Completed ∧
     files w2 !! CoreGen.indexPath = files w1 !! CoreGen.indexPath) ∧
  (∀ (args : list string) (w : world),
     (GenerateCrud.main args w).1 = Completed →
     let w1 := (GenerateCrud.main args w).2 in
     let w2 := (GenerateCrud.main args w1).2 in
     (GenerateCrud.main args w1).1 = Completed ∧
     files w2 !! GenerateCrud.modelsIndexPath
     = files w1 !! GenerateCrud.modelsIndexPath ∧
     files w2 !! GenerateCrud.servicesIndexPath
     = files w1 !! GenerateCrud.servicesIndexPath).
Proof.
  split; [|split; [|split; [|split; [|split]]]].
  - intros content line. unfold CoreGen.addExport.
    split; intros ->; reflexivity.
  - intros placeholder line content. unfold GenerateCrud.mergeExport.
    split; [|split].
    + intros ->. reflexivity.
    + intros -> H1 H2. simpl.
      apply String.eqb_neq in H1, H2. by rewrite H1, H2.
    + intros -> H. simpl.
      destruct H as [H|H]; apply String.eqb_eq in H; rewrite H; simpl;
        [reflexivity|by rewrite orb_true_r].
  - intros entityName content once. subst once.
    by rewrite !core_mergeExports_idempotent.
  - intros placeholder line content once. subst once.
    by rewrite !crud_mergeExport_idempotent.
  - exact core_second_run_index.
  - exact crud_second_run_indexes.
Qed.

(** The merges of C1 on the empty index and on the placeholder index, and a
    second run on the sample world. *)
Lemma manifest_merge_idempotent_witness :
  CoreGen.addExport "" "export * from './lib/user.entity';"
  = "" +:+ Js.newline +:+ "export * from './lib/user.entity';" ∧
  GenerateCrud.mergeExport GenerateCrud.modelsPlaceholder
    (GenerateCrud.modelsExportLine "user") "// Export all model interfaces here"
  = GenerateCrud.modelsExportLine "user" +:+ Js.newline ∧
  (let w1 := (CoreGen.main ["user"] sampleWorld).2 in
   files (CoreGen.main ["user"] w1).2 !! CoreGen.indexPath
   = files w1 !! CoreGen.indexPath).
Proof.
  destruct manifest_merge_idempotent as (Hcore & Hcrud & _ & _ & Hrun & _).
  split; [|split].
  - apply (Hcore "" "export * from './lib/user.entity';"). reflexivity.
  - apply (Hcrud GenerateCrud.modelsPlaceholder); [reflexivity|].
    right. reflexivity.
  - apply (Hrun ["user"] sampleWorld). reflexivity.
Defined.

(** C1 as stated fails: a missing line is not always appended with a
    trailing separator after the untouched prior text.  On the empty index the
    generator of [libs/olympus/core] puts the separator before the line; on
    an index that holds the placeholder comment [generate-crud.js] drops the
    comment. *)
Lemma manifest_merge_counterexample :
  let line := "export * from './lib/user.entity';" in
  let crudLine := GenerateCrud.modelsExportLine "user" in
  let prior := "// Export all model interfaces here" in
  (Js.includes "" line = false ∧
   CoreGen.addExport "" line = Js.newline +:+ line ∧
   CoreGen.addExport "" line ≠ "" +:+ line +:+ Js.newline) ∧
  (Js.includes prior crudLine = false ∧
   GenerateCrud.mergeExport GenerateCrud.modelsPlaceholder crudLine prior
   = crudLine +:+ Js.newline ∧
   GenerateCrud.mergeExport GenerateCrud.modelsPlaceholder crudLine prior
   ≠ prior +:+ crudLine +:+ Js.newline).
Proof. vm_compute. repeat split; discriminate. Qed.

(** * Further properties of the two scripts *)

(** ** Parsing a field specification *)

Lemma split_cons_inv (c : ascii) (s : string) :
  ∃ seg segs, Js.split c s = seg :: segs.
Proof.
  destruct (Js.split c s) as [|seg segs] eqn:H; [|by eauto].
  by apply split_nonempty in H.
Qed.

Lemma includes_colon_segments (s : string) :
  Js.includes s ":" = true → ∃ nm ty more, Js.split ":" s = nm :: ty :: more.
Proof.
  induction s as [|c s IH]; intros H; [discriminate|].
  rewrite includes_char_cons in H. simpl.
  destruct (Ascii.eqb_spec c ":") as [->|Hc].
  - destruct (split_cons_inv ":" s) as (seg & segs & ->). eauto.
  - rewrite eqb_sym in H. apply Ascii.eqb_neq in Hc. rewrite Hc in H.
    destruct (IH H) as (nm & ty & more & ->). eauto.
Qed.

(** A token parses in [generate-crud.js] exactly when it holds a colon. *)
Lemma crud_parseField_ok_iff (token : string) :
  (∃ f, GenerateCrud.parseField token = Ok f) ↔ Js.includes (Js.trim token) ":" = true.
Proof.
  split.
  - intros [f Hf]. destruct (Js.includes (Js.trim token) ":") eqn:H; [done|].
    by rewrite (crud_parseField_one_segment _ H) in Hf.
  - intros H. destruct (includes_colon_segments _ H) as (nm & ty & more & Hs).
    rewrite (crud_parseField_segments _ _ _ _ Hs). eauto.
Qed.

Lemma mapTokens_ok (tokens : list string) (fields : list GenerateCrud.field) :
  GenerateCrud.mapTokens tokens = Ok fields ↔
  Forall2 (λ token f, GenerateCrud.parseField token = Ok f) tokens fields.
Proof.
  revert fields. induction tokens as [|t tokens IH]; intros fields; simpl.
  - split.
    + intros [= <-]. constructor.
    + intros H. by inversion H.
  - split.
    + destruct (GenerateCrud.parseField t) as [f|e] eqn:Ht; [|discriminate].
      destruct (GenerateCrud.mapTokens tokens) as [fs|e] eqn:Hts; [|discriminate].
      intros [= <-]. constructor; [done|]. by apply IH.
    + intros H. inversion H as [|? f ? fs Hf Hfs]; subst.
      rewrite Hf. apply IH in Hfs. by rewrite Hfs.
Qed.

(** X1.  [parseFields] of [generate-crud.js] throws exactly when some token
    of the specification holds no colon; when it returns, it returns one
    field per token, in the order of the tokens, each the parse of its
    token. *)
Theorem crud_parseFields_outcome (fieldsString : string) :
  (GenerateCrud.parseFields fieldsString = Throw TypeError ↔
   ∃ token, token ∈ Js.split "," fieldsString ∧
            Js.includes (Js.trim token) ":" = false) ∧
  (∀ fields,
     GenerateCrud.parseFields fieldsString = Ok fields ↔
     Forall2 (λ token f, GenerateCrud.parseField token = Ok f)
       (Js.split "," fieldsString) fields) ∧
  (∀ fields,
     GenerateCrud.parseFields fieldsString = Ok fields →
     length fields = length (Js.split "," fieldsString) ∧ fields ≠ []).
Proof.
  unfold GenerateCrud.parseFields. split; [|split].
  - split.
    + generalize (Js.split "," fieldsString). intros tokens.
      induction tokens as [|t tokens IH]; [discriminate|]. simpl.
      destruct (GenerateCrud.parseField t) as [f|e] eqn:Ht.
      * destruct (GenerateCrud.mapTokens tokens) as [fs|[]] eqn:Hts; [discriminate|].
        intros _. destruct (IH eq_refl) as (token & Hin & Hc).
        exists token. split; [by apply list_elem_of_further|done].
      * intros _. exists t. split; [apply list_elem_of_here|].
        destruct (Js.includes (Js.trim t) ":") eqn:H; [|done].
        apply crud_parseField_ok_iff in H as [f Hf]. by rewrite Hf in Ht.
    + intros (token & Hin & Hc).
      apply (mapTokens_throws _ token Hin (crud_parseField_one_segment _ Hc)).
  - intros fields. apply mapTokens_ok.
  - intros fields H. apply mapTokens_ok in H.
    pose proof (Forall2_length _ _ _ H) as Hlen. split; [done|].
    intros ->. destruct (split_cons_inv "," fieldsString) as (seg & segs & Hs).
    by rewrite Hs in Hlen.
Qed.

(** X2.  [parseFields] of the generator of [libs/olympus/core] never fails:
    it returns one field per token, never an empty list, and every field has
    a non-empty type (a missing or empty type is [string]). *)
Theorem core_parseFields_total (fieldsString : string) :
  let fields := CoreGen.parseFields fieldsString in
  length fields = length (Js.split "," fieldsString) ∧
  fields ≠ [] ∧
  Forall (λ f, CoreGen.type f ≠ "") fields ∧
  (∀ i token, Js.split "," fieldsString !! i = Some token →
              fields !! i = Some (CoreGen.parseField token)).
Proof.
  intros fields. subst fields. unfold CoreGen.parseFields.
  split; [by rewrite length_map|]. split; [|split].
  - destruct (split_cons_inv "," fieldsString) as (seg & segs & ->). discriminate.
  - apply Forall_forall. intros f Hf. apply list_elem_of_fmap in Hf as (token & -> & _).
    unfold CoreGen.parseField. simpl.
    destruct (Js.split ":" (Js.trim token) !! 1%nat) as [[|c r]|]; discriminate.
  - intros i token H. by rewrite list_lookup_fmap, H.
Qed.

(** ** Case conversions and derived names *)



Lemma toLowerChar_toUpperChar (c : ascii) :
  Js.toLowerChar (Js.toUpperChar c) = Js.toLowerChar c.
Proof. destruct c as [[] [] [] [] [] [] [] []]; reflexivity. Qed.


Lemma toLowerChar_not_upper (c : ascii) :
  Js.isUpperChar c = false → Js.toLowerChar c = c.
Proof. unfold Js.toLowerChar. by intros ->. Qed.

Lemma toLowerCase_no_upper (s : string) :
  hasUpper s = false → Js.toLowerCase s = s.
Proof.
  induction s as [|c s IH]; [done|]. simpl.
  intros [Hc Hs]%orb_false_iff. by rewrite (toLowerChar_not_upper c Hc), (IH Hs).
Qed.

Lemma toLowerCase_toUpperCase (s : string) :
  Js.toLowerCase (Js.toUpperCase s) = Js.toLowerCase s.
Proof.
  induction s as [|c s IH]; [done|]. simpl. by rewrite toLowerChar_toUpperChar, IH.
Qed.

Lemma toLowerCase_idem (s : string) :
  Js.toLowerCase (Js.toLowerCase s) = Js.toLowerCase s.
Proof. apply toLowerCase_no_upper, hasUpper_toLowerCase. Qed.

Lemma underscoreUpper_no_upper (s : string) :
  hasUpper s = false → GenerateCrud.underscoreUpper s = s.
Proof.
  induction s as [|c s IH]; [done|]. simpl.
  intros [Hc Hs]%orb_false_iff. by rewrite Hc, (IH Hs).
Qed.

Lemma hasUpper_dropLeadingUnderscore (s : string) :
  hasUpper s = false → hasUpper (GenerateCrud.dropLeadingUnderscore s) = false.
Proof.
  destruct s as [|c s]; [done|]. unfold GenerateCrud.dropLeadingUnderscore.
  intros H. destruct c as [[] [] [] [] [] [] [] []]; exact H.
Qed.

(** The case conversions keep ASCII text ASCII. *)
Lemma isAscii_case_char (c : ascii) :
  (nat_of_ascii c <? 128)%nat = true →
  (nat_of_ascii (Js.toUpperChar c) <? 128)%nat = true ∧
  (nat_of_ascii (Js.toLowerChar c) <? 128)%nat = true.
Proof.
  destruct c as [[] [] [] [] [] [] [] []]; intros H; try discriminate H; by split.
Qed.

Lemma isAscii_toUpperCase (s : string) :
  isAscii s = true → isAscii (Js.toUpperCase s) = true.
Proof.
  induction s as [|c s IH]; [done|]. cbn [isAscii Js.toUpperCase].
  intros [Hc Hs]%andb_true_iff.
  by rewrite (proj1 (isAscii_case_char c Hc)), (IH Hs).
Qed.

Lemma isAscii_toLowerCase (s : string) :
  isAscii s = true → isAscii (Js.toLowerCase s) = true.
Proof.
  induction s as [|c s IH]; [done|]. cbn [isAscii Js.toLowerCase].
  intros [Hc Hs]%andb_true_iff.
  by rewrite (proj2 (isAscii_case_char c Hc)), (IH Hs).
Qed.

Lemma isAscii_toSnakeCase (s : string) :
  isAscii s = true → isAscii (GenerateCrud.toSnakeCase s) = true.
Proof.
  intros H. unfold GenerateCrud.toSnakeCase.
  assert (isAscii (GenerateCrud.underscoreUpper s) = true) as Hu.
  { induction s as [|c s IH]; [done|]. cbn [isAscii] in H.
    apply andb_true_iff in H as [Hc Hs].
    change (GenerateCrud.underscoreUpper (String c s))
      with (if Js.isUpperChar c
            then String "_" (String c (GenerateCrud.underscoreUpper s))
            else String c (GenerateCrud.underscoreUpper s)).
    destruct (Js.isUpperChar c); cbn [isAscii]; by rewrite Hc, (IH Hs). }
  apply isAscii_toLowerCase in Hu.
  destruct (Js.toLowerCase (GenerateCrud.underscoreUpper s)) as [|c r]; [done|].
  cbn [isAscii] in Hu. apply andb_true_iff in Hu as [Hc Hr].
  destruct c as [[] [] [] [] [] [] [] []]; try exact Hr;
    cbn [GenerateCrud.dropLeadingUnderscore isAscii]; by rewrite Hr.
Qed.



(** X4.  On ASCII text, the table name and route segment of
    [generate-crud.js] are ASCII and never hold an upper-case letter; and
    for an entity
    name that starts with a letter and has no upper-case letter after it,
    they are the entity name itself, first letter in lower case. *)
Theorem snake_case_table_name :
  (∀ str,
     isAscii str = true →
     isAscii (GenerateCrud.toSnakeCase str) = true ∧
     hasUpper (GenerateCrud.toSnakeCase str) = false) ∧
  (∀ (c : ascii) (rest : string),
     Js.isLowerChar c || Js.isUpperChar c = true →
     isAscii rest = true →
     hasUpper rest = false →
     GenerateCrud.toSnakeCase (GenerateCrud.toPascalCase (String c rest))
     = String (Js.toLowerChar c) rest).
Proof.
  split.
  - intros str Hascii. split; [by apply isAscii_toSnakeCase|].
    unfold GenerateCrud.toSnakeCase.
    apply hasUpper_dropLeadingUnderscore, hasUpper_toLowerCase.
  - intros c rest Hc _ Hrest.
    rewrite (toSnakeCase_letter c rest Hc).
    by rewrite (underscoreUpper_no_upper rest Hrest), (toLowerCase_no_upper rest Hrest).
Qed.

(** The entity names [product] and [Product] both get the table [product],
    and the table of [userProfile] has no upper-case letter. *)
Lemma snake_case_table_name_witness :
  GenerateCrud.toSnakeCase (GenerateCrud.toPascalCase "product") = "product" ∧
  GenerateCrud.toSnakeCase (GenerateCrud.toPascalCase "Product") = "product" ∧
  hasUpper (GenerateCrud.toSnakeCase "UserProfile") = false.
Proof.
  split; [|split].
  - apply (proj2 snake_case_table_name "p"%char "roduct"); reflexivity.
  - apply (proj2 snake_case_table_name "P"%char "roduct"); reflexivity.
  - apply (proj2 (proj1 snake_case_table_name "UserProfile" eq_refl)).
Defined.

(** ** The type tables of [libs/olympus/core] *)

Lemma core_tables_same_keys (key : string) :
  is_Some (CoreGen.typeScriptTypeMap !! key) ↔ is_Some (CoreGen.typeORMTypeMap !! key).
Proof.
  destruct (decide (key ∈ ["string"; "number"; "boolean"; "date"; "uuid"; "text";
                           "int"; "float"; "decimal"])) as [Hin|Hout].
  - repeat (apply elem_of_cons in Hin as [->|Hin];
            [split; intros _; vm_compute; eauto|]).
    by apply elem_of_nil in Hin.
  - repeat (apply not_elem_of_cons in Hout as [? Hout]).
    unfold CoreGen.typeScriptTypeMap, CoreGen.typeORMTypeMap. simpl.
    rewrite !lookup_insert_ne by done. by rewrite !lookup_empty.
Qed.

(** X5.  The type lookups of [libs/olympus/core] do not depend on the case
    of an ASCII type token (which is ASCII again in upper and in lower
    case), and the two tables know the same tokens: a token that falls back
    to the default in one falls back in the other. *)
Theorem core_type_lookup_case_insensitive (rawType : string) :
  isAscii rawType = true →
  (isAscii (Js.toUpperCase rawType) = true ∧ isAscii (Js.toLowerCase rawType) = true) ∧
  (CoreGen.getTypeScriptType (Js.toUpperCase rawType) = CoreGen.getTypeScriptType rawType ∧
   CoreGen.getTypeScriptType (Js.toLowerCase rawType) = CoreGen.getTypeScriptType rawType ∧
   CoreGen.getTypeORMType (Js.toUpperCase rawType) = CoreGen.getTypeORMType rawType ∧
   CoreGen.getTypeORMType (Js.toLowerCase rawType) = CoreGen.getTypeORMType rawType) ∧
  (CoreGen.typeScriptTypeMap !! Js.toLowerCase rawType = None ↔
   CoreGen.typeORMTypeMap !! Js.toLowerCase rawType = None).
Proof.
  intros Hascii.
  split; [split; [by apply isAscii_toUpperCase|by apply isAscii_toLowerCase]|].
  split.
  - unfold CoreGen.getTypeScriptType, CoreGen.getTypeORMType.
    by rewrite toLowerCase_toUpperCase, toLowerCase_idem.
  - pose proof (core_tables_same_keys (Js.toLowerCase rawType)) as H.
    rewrite !eq_None_not_Some. by rewrite H.
Qed.

(** The token [Int] in upper case and as typed. *)
Lemma core_type_lookup_case_insensitive_witness :
  CoreGen.getTypeORMType (Js.toUpperCase "Int") = CoreGen.getTypeORMType "Int" ∧
  CoreGen.getTypeScriptType (Js.toUpperCase "Int") = CoreGen.getTypeScriptType "Int".
Proof.
  destruct (core_type_lookup_case_insensitive "Int" eq_refl)
    as (_ & (Hv & _ & Hc & _) & _).
  split; [exact Hc|exact Hv].
Defined.

(** X6.  A type token that reads [constructor] or [__proto__] in any case
    does not fall back to the default: the lookup finds a member that the
    table inherits from [Object.prototype], and the generated member is
    declared with the text of a built-in function or of an object. *)
Theorem core_type_lookup_inherited (field : CoreGen.field) :
  (Js.toLowerCase (CoreGen.type field) = "constructor" →
   CoreGen.getTypeScriptType (CoreGen.type field) = CoreGen.VFunction "Object" ∧
   CoreGen.getTypeORMType (CoreGen.type field) = CoreGen.VFunction "Object" ∧
   CoreGen.interfaceMember field
   = "  " +:+ CoreGen.name field +:+ (if CoreGen.isOptional field then "?" else "")
     +:+ ": function Object() { [native code] };") ∧
  (Js.toLowerCase (CoreGen.type field) = "__proto__" →
   CoreGen.getTypeScriptType (CoreGen.type field) = CoreGen.VObjectPrototype ∧
   CoreGen.getTypeORMType (CoreGen.type field) = CoreGen.VObjectPrototype ∧
   CoreGen.interfaceMember field
   = "  " +:+ CoreGen.name field +:+ (if CoreGen.isOptional field then "?" else "")
     +:+ ": [object Object];").
Proof.
  unfold CoreGen.interfaceMember, CoreGen.getTypeScriptType, CoreGen.getTypeORMType.
  split; intros ->; repeat split.
Qed.

(** The field of the token [maker:Constructor]. *)
Lemma core_type_lookup_inherited_witness :
  CoreGen.interfaceMember (CoreGen.parseField "maker:Constructor")
  = "  maker: function Object() { [native code] };".
Proof.
  apply (proj1 (core_type_lookup_inherited (CoreGen.parseField "maker:Constructor"))).
  reflexivity.
Defined.

(** ** The index of [libs/olympus/core] *)

Lemma fold_addExport_prefix (ls : list string) (content : string) :
  ∃ suffix, fold_left CoreGen.addExport ls content = content +:+ suffix.
Proof.
  revert content. induction ls as [|l ls IH]; intros content; simpl.
  - exists "". by rewrite sapp_nil_r.
  - destruct (IH (CoreGen.addExport content l)) as [suffix ->].
    unfold CoreGen.addExport. destruct (negb _).
    + eexists. by rewrite sapp_assoc.
    + by eexists.
Qed.

(** X7.  The merge of the export lines only adds to the index of
    [libs/olympus/core]: the text it had is a prefix of the new text, the new
    text holds each of the four export lines, and the text is left as it was
    exactly when it held the four lines already. *)
Theorem core_mergeExports_grows (entityName indexContent : string) :
  let merged := CoreGen.mergeExports entityName indexContent in
  (∃ suffix, merged = indexContent +:+ suffix) ∧
  (∀ line, line ∈ CoreGen.exports entityName → Js.includes merged line = true) ∧
  (merged = indexContent ↔
   ∀ line, line ∈ CoreGen.exports entityName → Js.includes indexContent line = true).
Proof.
  intros merged. subst merged. unfold CoreGen.mergeExports.
  split; [apply fold_addExport_prefix|]. split.
  - intros line. apply fold_addExport_includes.
  - split.
    + intros H line Hin. rewrite <- H. by apply fold_addExport_includes.
    + apply fold_addExport_skip.
Qed.

(** ** The validation imports of the create DTO *)







(** ** The compact timestamp *)

Lemma first_segment_no_mark (s : string) :
  noDateMark (nth 0 (Js.split "." (GenerateCrud.stripDateMarks s)) "") = true.
Proof.
  induction s as [|c s IH]; [done|]. simpl.
  destruct (Ascii.eqb c "-" || Ascii.eqb c ":" || Ascii.eqb c "T") eqn:Hc; [done|].
  simpl. destruct (Ascii.eqb c ".") eqn:Hd; [done|].
  destruct (split_cons_inv "." (GenerateCrud.stripDateMarks s)) as (seg & segs & Hs).
  rewrite Hs in IH |- *. simpl in *. unfold isDateMark. by rewrite Hc, Hd, IH.
Qed.

(** X11.  The timestamp that [generate-crud.js] puts in the name of a
    migration holds no dash, colon, letter T or dot, whatever text the clock
    gives; and on a text of the shape of an ISO date, the six fields
    [year-month-dayThours:minutes:seconds] followed by a dot and the rest,
    it is these six fields put side by side. *)
Theorem compactTimestamp_digits :
  (∀ date, noDateMark (GenerateCrud.compactTimestamp date) = true) ∧
  (∀ (ms : Z) (year month day hours minutes seconds rest : string),
     noDateMark (year +:+ month +:+ day +:+ hours +:+ minutes +:+ seconds) = true →
     GenerateCrud.compactTimestamp
       {| epochMs := ms;
          isoString := year +:+ "-" +:+ month +:+ "-" +:+ day +:+ "T" +:+ hours
                       +:+ ":" +:+ minutes +:+ ":" +:+ seconds +:+ "." +:+ rest |}
     = year +:+ month +:+ day +:+ hours +:+ minutes +:+ seconds).
Proof.
  split; [intros date; apply first_segment_no_mark|].
  intros ms year month day hours minutes seconds rest Hclean.
  unfold GenerateCrud.compactTimestamp. cbn [isoString].
  pose proof Hclean as Hall.
  rewrite !noDateMark_app in Hclean.
  repeat (apply andb_true_iff in Hclean as [?%stripDateMarks_clean Hclean]).
  apply stripDateMarks_clean in Hclean.
  destruct_and!.
  rewrite !stripDateMarks_app.
  repeat match goal with H : GenerateCrud.stripDateMarks _ = _ |- _ => rewrite H; clear H end.
  change (GenerateCrud.stripDateMarks "-") with "".
  change (GenerateCrud.stripDateMarks ":") with "".
  change (GenerateCrud.stripDateMarks "T") with "".
  change (GenerateCrud.stripDateMarks ".") with ".".
  rewrite !sapp_nil_l.
  replace (year +:+ month +:+ day +:+ hours +:+ minutes +:+ seconds +:+ "."
           +:+ GenerateCrud.stripDateMarks rest)
    with ((year +:+ month +:+ day +:+ hours +:+ minutes +:+ seconds)
          +:+ String "." (GenerateCrud.stripDateMarks rest))
    by (by rewrite !sapp_assoc).
  rewrite split_app_sep; [done|].
  by apply stripDateMarks_clean in Hall as [_ ?].
Qed.

(** The reading [2024-01-02T03:04:05.678Z]. *)
Lemma compactTimestamp_digits_witness :
  GenerateCrud.compactTimestamp
    {| epochMs := 1704164645678; isoString := "2024-01-02T03:04:05.678Z" |}
  = "20240102030405".
Proof.
  apply (proj2 compactTimestamp_digits 1704164645678%Z "2024" "01" "02" "03" "04" "05" "678Z").
  reflexivity.
Defined.

(** ** Every field is declared *)

Lemma startsWith_refl (p : string) : Js.startsWith p p = true.
Proof. rewrite <- (sapp_nil_r p) at 2. apply startsWith_refl_app. Qed.

Lemma join_includes {A} (g : A → string) (sep : string) (xs : list A) (x : A) :
  x ∈ xs → Js.includes (Js.join sep (map g xs)) (g x) = true.
Proof.
  unfold Js.join. induction xs as [|y [|z xs] IH]; intros Hin.
  - by apply elem_of_nil in Hin.
  - apply list_elem_of_singleton in Hin as ->. simpl.
    apply includes_startsWith, startsWith_refl.
  - change (String.concat sep (map g (y :: z :: xs)))
      with (g y +:+ sep +:+ String.concat sep (map g (z :: xs))).
    apply elem_of_cons in Hin as [->|Hin].
    + apply includes_startsWith, startsWith_refl_app.
    + do 2 apply includes_app_r. by apply IH.
Qed.

Lemma appendEach_includes {A} (g : A → string) (xs : list A) (x : A) :
  x ∈ xs → Js.includes (Js.appendEach g xs "") (g x) = true.
Proof.
  induction xs as [|y xs IH]; intros Hin.
  - by apply elem_of_nil in Hin.
  - change (Js.appendEach g (y :: xs) "") with (Js.appendEach g xs ("" +:+ g y)).
    rewrite appendEach_app, sapp_nil_l.
    apply elem_of_cons in Hin as [->|Hin].
    + apply includes_startsWith, startsWith_refl_app.
    + apply includes_app_r. by apply IH.
Qed.

(** Looks for the chunk that lists the members of the fields. *)
Ltac find_member :=
  first
    [ apply includes_app_l;
      first [ solve [apply join_includes; assumption]
            | solve [apply appendEach_includes; assumption] ]
    | apply includes_app_r; find_member ].

Lemma includes_inv (s p : string) :
  Js.includes s p = true → ∃ before after, s = before +:+ p +:+ after.
Proof.
  assert (∀ p s, Js.startsWith p s = true → ∃ after, s = p +:+ after) as Hstarts.
  { clear. induction p as [|c p IH]; intros s H; [by exists s|].
    destruct s as [|d s]; [discriminate|]. simpl in H.
    apply andb_true_iff in H as [Hc H]. apply Ascii.eqb_eq in Hc as ->.
    destruct (IH s H) as [after ->]. by exists after. }
  induction s as [|c s IH]; intros H; rewrite includes_unfold in H;
    apply orb_true_iff in H as [H|H].
  - destruct (Hstarts _ _ H) as [after ->]. by exists "", after.
  - discriminate.
  - destruct (Hstarts _ _ H) as [after Hs]. exists "", after. by rewrite Hs.
  - destruct (IH H) as (before & after & ->). by exists (String c before), after.
Qed.

Lemma includes_trans (s t p : string) :
  Js.includes s t = true → Js.includes t p = true → Js.includes s p = true.
Proof.
  intros (a & b & ->)%includes_inv (c & d & ->)%includes_inv.
  apply includes_app_r. rewrite !sapp_assoc. apply includes_app_r.
  apply includes_startsWith, startsWith_refl_app.
Qed.

(** What each emitter lists for the fields holds what it renders for each
    field. *)
Lemma rendered_field_included :
  (∀ (entityName : string) (fields : list CoreGen.field) (timestamp : Z)
     (f : CoreGen.field),
     f ∈ fields →
     Js.includes (CoreGen.interfaceContent entityName fields)
       (CoreGen.interfaceMember f) = true ∧
     Js.includes (CoreGen.entityContent entityName fields)
       (CoreGen.entityMember f) = true ∧
     Js.includes (CoreGen.migrationContent entityName fields timestamp)
       (CoreGen.migrationColumn f) = true) ∧
  (∀ (entityName : string) (fields : list GenerateCrud.field) (w : world)
     (f : GenerateCrud.field),
     f ∈ fields →
     Js.includes (GenerateCrud.generateEntity entityName fields)
       (GenerateCrud.entityMember f) = true ∧
     Js.includes (GenerateCrud.generateInterface entityName fields)
       (GenerateCrud.interfaceMember f) = true ∧
     Js.includes (GenerateCrud.generateCreateDto entityName fields)
       (GenerateCrud.createDtoMember f) = true ∧
     Js.includes
       (GenerateCrud.content (GenerateCrud.generateMigration entityName fields w).1)
       (GenerateCrud.migrationColumn f) = true).
Proof.
  split; intros; split_and!; open_texts; find_member.
Qed.

(** Unfolds what is rendered for one field and looks for a piece in it. *)
Ltac in_rendering :=
  unfold CoreGen.interfaceMember, CoreGen.entityMember, CoreGen.migrationColumn,
    GenerateCrud.entityMember, GenerateCrud.interfaceMember,
    GenerateCrud.createDtoMember, GenerateCrud.migrationColumn, Js.showBool;
  cbv zeta;
  repeat match goal with
    | H : ?b = _ |- context [if negb ?b then _ else _] => rewrite H; cbn [negb]
    end;
  repeat match goal with
    | |- context [if ?b then _ else _] => destruct b
    end;
  repeat match goal with
    | |- context [String.append (String.append ?a ?b) ?c] =>
        rewrite (sapp_assoc a b c)
    end;
  change Js.newline with (String "010"%char EmptyString);
  first [ apply includes_startsWith; starts | search ].

(** X12.  Every field of the list given to an emitter is declared in what
    the emitter writes, with its name and its type.  In the generator of
    [libs/olympus/core] the interfaces hold the member of the field (name,
    optional marker, value type), the entity its column decorator (column
    type, nullability) followed by that member, the migration its column
    block (name, column type, nullability).  In [generate-crud.js] the
    entity holds the decorators of the field followed by its member (name,
    type, [| null] when optional), the interface that member, and, for a
    field whose name does not hold [id], the create DTO its member (with [?]
    when optional) and the migration its column block. *)
Theorem every_field_is_declared :
  (∀ (entityName : string) (fields : list CoreGen.field) (timestamp : Z)
     (f : CoreGen.field),
     f ∈ fields →
     let nl := Js.newline in
     let valueType := CoreGen.toText (CoreGen.getTypeScriptType (CoreGen.type f)) in
     let columnType := CoreGen.toText (CoreGen.getTypeORMType (CoreGen.type f)) in
     let marker := if CoreGen.isOptional f then "?" else "" in
     let nullable := if CoreGen.isOptional f then "true" else "false" in
     let member := "  " +:+ CoreGen.name f +:+ marker +:+ ": " +:+ valueType +:+ ";" in
     Js.includes (CoreGen.interfaceContent entityName fields) member = true ∧
     Js.includes (CoreGen.entityContent entityName fields)
       ("  @Column({ type: '" +:+ columnType +:+ "', nullable: " +:+ nullable
        +:+ " })" +:+ nl +:+ member) = true ∧
     Js.includes (CoreGen.migrationContent entityName fields timestamp)
       ("          {" +:+ nl
        +:+ "            name: '" +:+ CoreGen.name f +:+ "'," +:+ nl
        +:+ "            type: '" +:+ columnType +:+ "'," +:+ nl
        +:+ "            isNullable: " +:+ nullable +:+ "," +:+ nl
        +:+ "          },") = true) ∧
  (∀ (entityName : string) (fields : list GenerateCrud.field) (w : world)
     (f : GenerateCrud.field),
     f ∈ fields →
     let nl := Js.newline in
     let member :=
       "  " +:+ GenerateCrud.name f +:+ ": " +:+ GenerateCrud.type f
       +:+ (if GenerateCrud.isOptional f then " | null" else "") +:+ ";" +:+ nl in
     Js.includes (GenerateCrud.generateEntity entityName fields)
       ("  " +:+ Js.join (nl +:+ "  ") (GenerateCrud.decorators f) +:+ nl
        +:+ member) = true ∧
     Js.includes (GenerateCrud.generateInterface entityName fields) member = true ∧
     (Js.includes (GenerateCrud.name f) "id" = false →
      Js.includes (GenerateCrud.generateCreateDto entityName fields)
        ("  " +:+ GenerateCrud.name f
         +:+ (if GenerateCrud.isOptional f then "?: " else ": ")
         +:+ GenerateCrud.type f +:+ ";" +:+ nl) = true ∧
      Js.includes
        (GenerateCrud.content (GenerateCrud.generateMigration entityName fields w).1)
        ("          {" +:+ nl
         +:+ "            name: '" +:+ GenerateCrud.name f +:+ "'," +:+ nl
         +:+ "            type: " +:+ GenerateCrud.migrationColumnType f +:+ "," +:+ nl
         +:+ "            isNullable: "
         +:+ (if GenerateCrud.isOptional f then "true" else "false") +:+ "," +:+ nl
         +:+ "          }," +:+ nl) = true)).
Proof.
  destruct rendered_field_included as [Hcore Hcrud].
  split.
  - intros entityName fields timestamp f Hin nl valueType columnType marker nullable
      member.
    subst nl valueType columnType marker nullable member.
    destruct (Hcore entityName fields timestamp f Hin) as (H1 & H2 & H3).
    split_and!;
      [ apply (includes_trans _ _ _ H1)
      | apply (includes_trans _ _ _ H2)
      | apply (includes_trans _ _ _ H3) ]; in_rendering.
  - intros entityName fields w f Hin nl member. subst nl member.
    destruct (Hcrud entityName fields w f Hin) as (H1 & H2 & H3 & H4).
    split_and!;
      [ apply (includes_trans _ _ _ H1); in_rendering
      | apply (includes_trans _ _ _ H2); in_rendering
      | intros Hid; split;
        [ apply (includes_trans _ _ _ H3) | apply (includes_trans _ _ _ H4) ];
        in_rendering ].
Qed.

(** The optional field of [name:string,price:number?]. *)
Lemma every_field_is_declared_witness :
  ∃ fields,
    GenerateCrud.parseFields "name:string,price:number?" = Ok fields ∧
    Js.includes (GenerateCrud.generateInterface "product" fields)
      ("  price: number | null;" +:+ Js.newline) = true ∧
    Js.includes (GenerateCrud.generateCreateDto "product" fields)
      ("  price?: number;" +:+ Js.newline) = true.
Proof.
  eexists. split; [vm_compute; reflexivity|].
  match goal with
  | |- context [GenerateCrud.generateInterface _ ?fields] =>
      lazymatch fields with
      | [_; ?f] =>
          destruct (proj2 every_field_is_declared "product" fields sampleWorld f)
            as (_ & Hinterface & Hrest);
          [apply list_elem_of_further, list_elem_of_here|]
      end
  end.
  destruct (Hrest eq_refl) as [Hdto _].
  split; [exact Hinterface|exact Hdto].
Defined.

(** ** No file of a run overwrites another *)

Lemma split_app (c : ascii) (a b : string) :
  Js.split c (a +:+ String c b) = Js.split c a ++ Js.split c b.
Proof.
  induction a as [|d a IH]; [by rewrite sapp_nil_l; simpl; rewrite Ascii.eqb_refl|].
  rewrite sapp_cons. simpl. rewrite IH.
  destruct (Ascii.eqb d c); [reflexivity|].
  destruct (split_cons_inv c a) as (seg & segs & ->). reflexivity.
Qed.

Lemma normalPath_join (a b : string) :
  normalPath (a +:+ "/" +:+ b) = normalPath a && normalPath b.
Proof.
  unfold normalPath. change ("/" +:+ b) with (String "/" b).
  by rewrite split_app, forallb_app.
Qed.

Lemma normalPath_segment (s : string) :
  plainName s = true → normalPath s = true.
Proof.
  intros H. unfold normalPath. pose proof H as Hslash.
  unfold plainName in Hslash. apply andb_true_iff in Hslash as [_ Hslash].
  apply negb_true_iff in Hslash. rewrite (split_no_sep _ _ Hslash). simpl.
  by rewrite H.
Qed.

Lemma plainName_long (s : string) :
  (3 ≤ String.length s)%nat → Js.includes s "/" = false → plainName s = true.
Proof.
  intros Hlen Hslash. unfold plainName. rewrite Hslash.
  destruct s as [|a [|b [|c s]]]; simpl in Hlen; try lia.
  rewrite !andb_true_r. cbn [negb].
  assert (∀ t, String.eqb (String a (String b (String c s))) t = true →
               (3 ≤ String.length t)%nat) as Hlong.
  { intros t Ht. apply String.eqb_eq in Ht as <-. simpl. lia. }
  destruct (String.eqb _ "") eqn:H0; [apply Hlong in H0; simpl in H0; lia|].
  destruct (String.eqb _ ".") eqn:H1; [apply Hlong in H1; simpl in H1; lia|].
  destruct (String.eqb _ "..") eqn:H2; [apply Hlong in H2; simpl in H2; lia|].
  reflexivity.
Qed.

Lemma plainName_no_slash (s : string) :
  plainName s = true → Js.includes s "/" = false.
Proof.
  unfold plainName. intros [_ H]%andb_true_iff. by apply negb_true_iff in H.
Qed.

Lemma plainName_length (s : string) :
  plainName s = true → (1 ≤ String.length s)%nat.
Proof. destruct s; [discriminate|simpl; lia]. Qed.

(** Neither case conversion makes a slash, nor removes one. *)
Lemma slash_toUpperChar (c : ascii) :
  Ascii.eqb "/" (Js.toUpperChar c) = Ascii.eqb "/" c.
Proof. by destruct c as [[] [] [] [] [] [] [] []]. Qed.

Lemma slash_toLowerChar (c : ascii) :
  Ascii.eqb "/" (Js.toLowerChar c) = Ascii.eqb "/" c.
Proof. by destruct c as [[] [] [] [] [] [] [] []]. Qed.

Lemma slash_toLowerCase (s : string) :
  Js.includes (Js.toLowerCase s) "/" = Js.includes s "/".
Proof.
  induction s as [|c s IH]; [reflexivity|].
  simpl Js.toLowerCase. by rewrite !includes_char_cons, slash_toLowerChar, IH.
Qed.

Lemma slash_toPascalCase (s : string) :
  Js.includes (CoreGen.toPascalCase s) "/" = Js.includes s "/" ∧
  Js.includes (GenerateCrud.toPascalCase s) "/" = Js.includes s "/".
Proof.
  destruct s as [|c s]; [done|].
  change (CoreGen.toPascalCase (String c s)) with (String (Js.toUpperChar c) s).
  change (GenerateCrud.toPascalCase (String c s)) with (String (Js.toUpperChar c) s).
  by rewrite !includes_char_cons, slash_toUpperChar.
Qed.

Lemma slash_underscoreUpper (s : string) :
  Js.includes (GenerateCrud.underscoreUpper s) "/" = Js.includes s "/".
Proof.
  induction s as [|c s IH]; [reflexivity|].
  change (GenerateCrud.underscoreUpper (String c s))
    with (if Js.isUpperChar c
          then String "_" (String c (GenerateCrud.underscoreUpper s))
          else String c (GenerateCrud.underscoreUpper s)).
  destruct (Js.isUpperChar c); rewrite !includes_char_cons, IH; reflexivity.
Qed.

Lemma slash_dropLeadingUnderscore (s : string) :
  Js.includes s "/" = false →
  Js.includes (GenerateCrud.dropLeadingUnderscore s) "/" = false.
Proof.
  destruct s as [|c s]; [done|]. intros H.
  pose proof H as Hs. rewrite includes_char_cons in Hs.
  apply orb_false_iff in Hs as [_ Hs].
  by destruct c as [[] [] [] [] [] [] [] []].
Qed.

Lemma slash_toSnakeCase (s : string) :
  Js.includes s "/" = false → Js.includes (GenerateCrud.toSnakeCase s) "/" = false.
Proof.
  intros H. unfold GenerateCrud.toSnakeCase.
  apply slash_dropLeadingUnderscore. by rewrite slash_toLowerCase, slash_underscoreUpper.
Qed.

(** A decimal numeral holds no slash. *)
Lemma slash_showZ (z : Z) : Js.includes (Js.showZ z) "/" = false.
Proof.
  assert (∀ d, Js.includes (NilEmpty.string_of_uint d) "/" = false) as Hdigits.
  { induction d as [|d IH|d IH|d IH|d IH|d IH|d IH|d IH|d IH|d IH|d IH];
      [reflexivity|..];
      cbn [NilEmpty.string_of_uint]; by rewrite includes_char_cons, IH. }
  assert (∀ d, Js.includes (NilZero.string_of_uint d) "/" = false) as Huint.
  { intros d. destruct d; [reflexivity|..]; apply Hdigits. }
  unfold Js.showZ, NilZero.string_of_int.
  destruct (Z.to_int z) as [d|d]; [apply Huint|].
  by rewrite includes_char_cons, Huint.
Qed.

(** The compact timestamp of a text without a slash holds none. *)
Lemma slash_compactTimestamp (date : Date) :
  Js.includes (isoString date) "/" = false →
  Js.includes (GenerateCrud.compactTimestamp date) "/" = false.
Proof.
  unfold GenerateCrud.compactTimestamp. generalize (isoString date) as s.
  induction s as [|c s IH]; [done|]. intros H.
  rewrite includes_char_cons in H. apply orb_false_iff in H as [Hc Hs].
  specialize (IH Hs).
  change (GenerateCrud.stripDateMarks (String c s))
    with (if Ascii.eqb c "-" || Ascii.eqb c ":" || Ascii.eqb c "T"
          then GenerateCrud.stripDateMarks s
          else String c (GenerateCrud.stripDateMarks s)).
  destruct (Ascii.eqb c "-" || Ascii.eqb c ":" || Ascii.eqb c "T"); [exact IH|].
  change (Js.split "." (String c (GenerateCrud.stripDateMarks s)))
    with (if Ascii.eqb c "."
          then "" :: Js.split "." (GenerateCrud.stripDateMarks s)
          else match Js.split "." (GenerateCrud.stripDateMarks s) with
               | seg :: segs => String c seg :: segs
               | [] => [String c ""]
               end).
  destruct (Ascii.eqb c "."); [reflexivity|].
  destruct (split_cons_inv "." (GenerateCrud.stripDateMarks s)) as (seg & segs & Hsplit).
  rewrite Hsplit in IH |- *. cbn [nth] in *. by rewrite includes_char_cons, Hc, IH.
Qed.
Lemma replay_app (log log' : list (string * string)) (m : gmap string string) :
  replay (log ++ log') m = replay log' (replay log m).
Proof. unfold replay. by rewrite fold_left_app. Qed.

Lemma replay_lookup_other (log : list (string * string)) (m : gmap string string)
    (p : string) :
  p ∉ log.*1 → replay log m !! p = m !! p.
Proof.
  revert m. induction log as [|[q c] log IH]; intros m Hp; [done|].
  rewrite fmap_cons in Hp. apply not_elem_of_cons in Hp as [Hq Hp].
  change (replay ((q, c) :: log) m) with (replay log (<[q := c]> m)).
  rewrite (IH _ Hp). by rewrite lookup_insert_ne.
Qed.

Lemma replay_lookup_distinct (log : list (string * string)) (m : gmap string string)
    (p c : string) :
  NoDup log.*1 → (p, c) ∈ log → replay log m !! p = Some c.
Proof.
  revert m. induction log as [|[q d] log IH]; intros m Hnd Hin.
  - by apply elem_of_nil in Hin.
  - change (replay ((q, d) :: log) m) with (replay log (<[q := d]> m)).
    rewrite fmap_cons in Hnd. apply NoDup_cons in Hnd as [Hq Hnd].
    apply elem_of_cons in Hin as [[= -> ->]|Hin].
    + rewrite (replay_lookup_other _ _ _ Hq). apply lookup_insert_eq.
    + by apply IH.
Qed.

Lemma length_toPascalCase (str : string) :
  String.length (CoreGen.toPascalCase str) = String.length str.
Proof. by destruct str. Qed.

Lemma length_crud_toPascalCase (str : string) :
  String.length (GenerateCrud.toPascalCase str) = String.length str.
Proof. by destruct str. Qed.

(** Refutes an equation between two paths: strips the characters they
    share, then a shared leading chunk, then compares the lengths. *)
Ltac paths_differ H :=
  unfold path_join, Js.join, CoreGen.directory, CoreGen.indexPath,
    GenerateCrud.targetPath, GenerateCrud.migrationPath, GenerateCrud.interfacePath,
    GenerateCrud.servicePath, GenerateCrud.modelsIndexPath,
    GenerateCrud.servicesIndexPath, path_join, Js.join in H;
  unfold path_join, Js.join in H;
  cbn [String.concat] in H;
  repeat match type of H with
    | context [String.append (String.append ?a ?b) ?c] =>
        rewrite (sapp_assoc a b c) in H
    end;
  repeat first [ discriminate H | injection H as H | apply String.app_inj in H
               | progress rewrite ?sapp_cons, ?sapp_nil_l in H ];
  apply (f_equal String.length) in H;
  repeat (progress (cbn [String.length] in H;
                    rewrite ?length_sapp, ?length_toPascalCase,
                      ?length_crud_toPascalCase in H));
  lia.

Lemma core_run_paths_distinct (entityName : string) (stamp : string) :
  NoDup
    [ path_join [CoreGen.directory; entityName +:+ ".interface.ts"];
      path_join [CoreGen.directory; entityName +:+ ".service.ts"];
      path_join [CoreGen.directory; entityName +:+ ".entity.ts"];
      path_join [CoreGen.directory; entityName +:+ ".controller.ts"];
      path_join [CoreGen.directory; "migrations";
                 "Create" +:+ CoreGen.toPascalCase entityName +:+ "Table"
                 +:+ stamp +:+ ".ts"];
      CoreGen.indexPath ].
Proof.
  repeat (apply NoDup_cons; split;
          [ rewrite ?not_elem_of_cons; split_and?;
            try (by apply not_elem_of_nil); intros H; paths_differ H | ]).
  apply NoDup_nil_2.
Qed.

Lemma crud_run_paths_distinct (entityName stamp : string) (indexPaths : list string) :
  entityName ≠ "index" →
  indexPaths `sublist_of`
    [GenerateCrud.modelsIndexPath; GenerateCrud.servicesIndexPath] →
  NoDup
    ([ path_join [GenerateCrud.targetPath entityName; entityName +:+ ".entity.ts"];
       path_join [GenerateCrud.targetPath entityName; entityName +:+ ".module.ts"];
       path_join [GenerateCrud.targetPath entityName; entityName +:+ ".service.ts"];
       path_join [GenerateCrud.targetPath entityName; entityName +:+ ".controller.ts"];
       path_join [GenerateCrud.targetPath entityName; "dto";
                  "create-" +:+ entityName +:+ ".dto.ts"];
       path_join [GenerateCrud.targetPath entityName; "dto";
                  "update-" +:+ entityName +:+ ".dto.ts"];
       path_join [GenerateCrud.migrationPath;
                  stamp +:+ "_create_"
                  +:+ GenerateCrud.toSnakeCase (GenerateCrud.toPascalCase entityName)
                  +:+ "_table.ts"];
       path_join [GenerateCrud.interfacePath; entityName +:+ ".ts"];
       path_join [GenerateCrud.servicePath; entityName +:+ ".service.ts"] ]
     ++ indexPaths).
Proof.
  intros Hname Hindex.
  assert (path_join [GenerateCrud.interfacePath; entityName +:+ ".ts"]
          ≠ GenerateCrud.modelsIndexPath) as Hmodels.
  { intros H.
    change (path_join [GenerateCrud.interfacePath; entityName +:+ ".ts"])
      with ("libs/olympus/core/src/lib/models/" +:+ entityName +:+ ".ts") in H.
    change GenerateCrud.modelsIndexPath
      with ("libs/olympus/core/src/lib/models/" +:+ "index" +:+ ".ts") in H.
    apply String.app_inj in H. by apply sapp_inj_r in H. }
  eapply sublist_NoDup; [|apply sublist_app; [reflexivity|exact Hindex]].
  cbn [app].
  repeat (apply NoDup_cons; split;
          [ rewrite ?not_elem_of_cons; split_and?;
            try (by apply not_elem_of_nil); try exact Hmodels;
            intros H; paths_differ H | ]).
  apply NoDup_nil_2.
Qed.

Lemma log_of_three_parts {A} (log before generated first second : list A) :
  log = before ++ generated →
  (log ++ first) ++ second = before ++ generated ++ first ++ second.
Proof. intros ->. by rewrite <- !(assoc_L (++)). Qed.

Lemma updateIndex_log (placeholder exportLine indexPath : string) (w : world) :
  let w' := GenerateCrud.updateIndex placeholder exportLine indexPath w in
  ∃ extra,
    written w' = written w ++ extra ∧ files w' = replay extra (files w) ∧
    (extra = [] ∨ ∃ text, extra = [(indexPath, text)]).
Proof.
  unfold GenerateCrud.updateIndex. cbv zeta.
  destruct (negb _).
  - eexists [_]. split_and!; [reflexivity|reflexivity|right; by eexists].
  - exists []. split_and!; [by rewrite app_nil_r|reflexivity|by left].
Qed.


(** Proves that a path of the scripts is in normal form, from the facts at
    hand on its variable parts. *)
Ltac normal_path Hplain :=
  unfold path_join, Js.join, CoreGen.directory, GenerateCrud.targetPath,
    GenerateCrud.migrationPath, GenerateCrud.interfacePath, GenerateCrud.servicePath;
  unfold path_join, Js.join;
  cbn [String.concat];
  repeat match goal with
    | |- context [String.append (String.append ?a ?b) ?c] =>
        rewrite (sapp_assoc a b c)
    end;
  repeat (rewrite normalPath_join; apply andb_true_iff; split;
          [first [reflexivity | apply normalPath_segment; exact Hplain]|]);
  apply normalPath_segment, plainName_long;
  [ rewrite ?length_sapp; cbn [String.length]; lia
  | rewrite ?includes_char_app;
    repeat match goal with
      | H : Js.includes ?s "/" = false |- context [Js.includes ?s "/"] => rewrite H
      end;
    reflexivity ].

Lemma core_run_paths_normal (entityName : string) (timestamp : Z) :
  plainName entityName = true →
  Forall (λ p, normalPath p = true)
    [ path_join [CoreGen.directory; entityName +:+ ".interface.ts"];
      path_join [CoreGen.directory; entityName +:+ ".service.ts"];
      path_join [CoreGen.directory; entityName +:+ ".entity.ts"];
      path_join [CoreGen.directory; entityName +:+ ".controller.ts"];
      path_join [CoreGen.directory; "migrations";
                 "Create" +:+ CoreGen.toPascalCase entityName +:+ "Table"
                 +:+ Js.showZ timestamp +:+ ".ts"];
      CoreGen.indexPath ].
Proof.
  intros Hplain.
  pose proof (plainName_no_slash _ Hplain) as Hname.
  pose proof (proj1 (slash_toPascalCase entityName)) as Hpascal.
  rewrite Hname in Hpascal.
  pose proof (slash_showZ timestamp) as Hstamp.
  repeat (apply Forall_cons; split; [try reflexivity; normal_path Hplain|]).
  apply Forall_nil_2.
Qed.

Lemma crud_run_paths_normal (entityName : string) (date : Date) :
  plainName entityName = true →
  Js.includes (isoString date) "/" = false →
  Forall (λ p, normalPath p = true)
    [ path_join [GenerateCrud.targetPath entityName; entityName +:+ ".entity.ts"];
      path_join [GenerateCrud.targetPath entityName; entityName +:+ ".module.ts"];
      path_join [GenerateCrud.targetPath entityName; entityName +:+ ".service.ts"];
      path_join [GenerateCrud.targetPath entityName; entityName +:+ ".controller.ts"];
      path_join [GenerateCrud.targetPath entityName; "dto";
                 "create-" +:+ entityName +:+ ".dto.ts"];
      path_join [GenerateCrud.targetPath entityName; "dto";
                 "update-" +:+ entityName +:+ ".dto.ts"];
      path_join [GenerateCrud.migrationPath;
                 GenerateCrud.compactTimestamp date +:+ "_create_"
                 +:+ GenerateCrud.toSnakeCase (GenerateCrud.toPascalCase entityName)
                 +:+ "_table.ts"];
      path_join [GenerateCrud.interfacePath; entityName +:+ ".ts"];
      path_join [GenerateCrud.servicePath; entityName +:+ ".service.ts"] ].
Proof.
  intros Hplain Hclock.
  pose proof (plainName_no_slash _ Hplain) as Hname.
  pose proof (proj2 (slash_toPascalCase entityName)) as Hpascal.
  rewrite Hname in Hpascal.
  pose proof (slash_toSnakeCase _ Hpascal) as Hsnake.
  pose proof (slash_compactTimestamp _ Hclock) as Hstamp.
  repeat (apply Forall_cons; split; [normal_path Hplain|]).
  apply Forall_nil_2.
Qed.

(** X13.  For an entity name that is a plain path segment, every path that
    a run writes is in the normal form of [path.join] (no empty segment, no
    dot segment), and no write of the run is lost to a later write of the
    same run: in the log that a run of the generator of [libs/olympus/core]
    adds no path occurs twice, and every file of the log holds after the run
    the text that was written to it.  The same holds of [generate-crud.js]
    when the text of the clock holds no slash, unless the entity is named
    [index]: then the interface file is the models index itself, which the
    update of that index can write a second time. *)
Theorem run_keeps_every_file (entityName : string) (more : list string) (w : world) :
  plainName entityName = true →
  let args := entityName :: more in
  let kept (w' : world) :=
    ∃ new,
      written w' = written w ++ new ∧
      Forall (λ entry, normalPath entry.1 = true) new ∧
      NoDup new.*1 ∧
      ∀ p text, (p, text) ∈ new → files w' !! p = Some text in
  kept (CoreGen.main args w).2 ∧
  (entityName ≠ "index" →
   Js.includes (isoString (clock w (ticks w))) "/" = false →
   kept (GenerateCrud.main args w).2).
Proof.
  intros Hplain args kept. subst args.
  assert (∀ w' new,
            written w' = written w ++ new → files w' = replay new (files w) →
            Forall (λ p, normalPath p = true) new.*1 →
            NoDup new.*1 → kept w') as Hkept.
  { intros w' new Hlog Hfiles Hnormal Hnd. exists new. split_and!; try done.
    - by apply Forall_fmap in Hnormal.
    - intros p text Hin. rewrite Hfiles. by apply replay_lookup_distinct. }
  assert (kept w) as Hnone.
  { apply (Hkept w []);
      [by rewrite app_nil_r|reflexivity|apply Forall_nil_2|apply NoDup_nil_2]. }
  split.
  - unfold CoreGen.main. cbn [lookup list_lookup].
    destruct entityName as [|c rest]; try exact Hnone.
    cbn [snd readClock]. eapply Hkept.
    + cbn [writeFileSync written]. flatten_log. reflexivity.
    + reflexivity.
    + apply (core_run_paths_normal _ _ Hplain).
    + apply core_run_paths_distinct.
  - intros Hentity Hclock. unfold GenerateCrud.main.
    destruct more as [|fieldsString more]; try exact Hnone.
    destruct (GenerateCrud.parseFields fieldsString); [|exact Hnone].
    unfold GenerateCrud.generateMigration, readClock.
    cbv beta iota zeta delta [fst snd GenerateCrud.content GenerateCrud.timestamp].
    match goal with
    | |- context [GenerateCrud.updateIndex ?p2 ?l2 ?i2
                    (GenerateCrud.updateIndex ?p1 ?l1 ?i1 ?w9)] =>
        destruct (updateIndex_log p1 l1 i1 w9) as (x1 & L1 & F1 & K1);
        destruct (updateIndex_log p2 l2 i2 (GenerateCrud.updateIndex p1 l1 i1 w9))
          as (x2 & L2 & F2 & K2);
        cbv zeta in L1, F1, L2, F2
    end.
    eapply (Hkept _ (_ ++ x1 ++ x2)).
    + rewrite L2, L1. apply log_of_three_parts.
      cbn [writeFileSync written]. flatten_log. reflexivity.
    + rewrite F2, F1, !replay_app. reflexivity.
    + rewrite fmap_app, fmap_app. apply Forall_app_2; [|apply Forall_app_2].
      * apply (crud_run_paths_normal _ _ Hplain Hclock).
      * destruct K1 as [-> | [text ->]]; [apply Forall_nil_2|].
        apply Forall_cons; split; [reflexivity|apply Forall_nil_2].
      * destruct K2 as [-> | [text ->]]; [apply Forall_nil_2|].
        apply Forall_cons; split; [reflexivity|apply Forall_nil_2].
    + rewrite fmap_app, fmap_app.
      apply (crud_run_paths_distinct entityName _ (x1.*1 ++ x2.*1) Hentity).
      apply (sublist_app _ [_] _ [_]).
      * destruct K1 as [-> | [text ->]]; [apply sublist_nil_l|reflexivity].
      * destruct K2 as [-> | [text ->]]; [apply sublist_nil_l|reflexivity].
Qed.

(** A run of [generate-crud.js] for the entity [user]. *)
Lemma run_keeps_every_file_witness :
  ∃ new,
    written (GenerateCrud.main ["user"; "name:string"] sampleWorld).2
    = written sampleWorld ++ new ∧
    Forall (λ entry, normalPath entry.1 = true) new ∧
    NoDup new.*1 ∧
    ∀ p text, (p, text) ∈ new →
      files (GenerateCrud.main ["user"; "name:string"] sampleWorld).2 !! p = Some text.
Proof.
  apply (proj2 (run_keeps_every_file "user" ["name:string"] sampleWorld eq_refl)).
  - discriminate.
  - reflexivity.
Defined.
